(** * ci-cd.js: the webhook relay, embedded and verified

    The program is an Express application with two handlers that share an
    in-memory [Map] from repository full names to signing secrets:

    - [POST /add-repo] creates a GitHub webhook, stores a fresh secret and
      triggers a first Jenkins build;
    - [POST /webhook/github] checks the HMAC-SHA256 signature of a push
      notification and triggers a Jenkins build.

    The embedding is shallow.  JavaScript values that come out of a JSON
    body are an inductive type, the secret store is a [gmap], the handlers
    are written in a small monad that threads the store and the list of
    outbound calls and carries JavaScript's three ways of leaving a block
    (fall through, [throw], [return res...]).  What the remote systems
    answer and what [crypto.randomBytes] draws are inputs of the model.

    A handler run is taken in isolation.  Node runs a handler without
    interruption between two [await]s; the receiver reads the map before
    its only [await] and the registrar writes it once, so what a run does
    to the map is one atomic step.  How the requests of other clients
    interleave at the [await]s is not modelled. *)

From Stdlib Require Import ZArith List String Ascii Lia Bool.
From stdpp Require Import base option list gmap strings pretty.

Import ListNotations.
#[local] Open Scope string_scope.
#[local] Open Scope list_scope.
#[local] Open Scope Z_scope.

(** ** Bytes, strings and hexadecimal *)

(** A JavaScript string is held as the sequence of the bytes of its UTF-8
    encoding, which is what [hmac.update(string)] feeds to the hash. *)
Definition bytes_of_string (s : string) : list Z :=
  map (fun c => Z.of_N (N_of_ascii c)) (list_ascii_of_string s).

Definition hex_digit (d : Z) : ascii :=
  if d <? 10 then ascii_of_N (Z.to_N (48 + d)) else ascii_of_N (Z.to_N (87 + d)).

(** [Buffer.prototype.toString('hex')]: two lowercase digits per byte. *)
Fixpoint hex_of_bytes (bs : list Z) : string :=
  match bs with
  | [] => EmptyString
  | b :: rest => String (hex_digit (b / 16)) (String (hex_digit (b mod 16)) (hex_of_bytes rest))
  end.

(** ** SHA-256 and HMAC (Node's [crypto.createHmac('sha256', key)])

    FIPS 180-4 and RFC 2104 over 32-bit words held in [Z]; every addition
    is reduced modulo [2^32]. *)
Module SHA256.

Definition mask32 : Z := 0xffffffff.
Definition wrap (x : Z) : Z := Z.land x mask32.
Definition plus (x y : Z) : Z := wrap (x + y).
Definition rotr (n x : Z) : Z := Z.lor (Z.shiftr x n) (wrap (Z.shiftl x (32 - n))).
Definition inv (x : Z) : Z := Z.lxor x mask32.

Definition Ch (x y z : Z) : Z := Z.lxor (Z.land x y) (Z.land (inv x) z).
Definition Maj (x y z : Z) : Z := Z.lxor (Z.lxor (Z.land x y) (Z.land x z)) (Z.land y z).
Definition Sigma0 (x : Z) : Z := Z.lxor (Z.lxor (rotr 2 x) (rotr 13 x)) (rotr 22 x).
Definition Sigma1 (x : Z) : Z := Z.lxor (Z.lxor (rotr 6 x) (rotr 11 x)) (rotr 25 x).
Definition sigma0 (x : Z) : Z := Z.lxor (Z.lxor (rotr 7 x) (rotr 18 x)) (Z.shiftr x 3).
Definition sigma1 (x : Z) : Z := Z.lxor (Z.lxor (rotr 17 x) (rotr 19 x)) (Z.shiftr x 10).

(** The constants are defined as FIPS 180-4 does: the first 32 bits of the
    fractional parts of the cube roots (for [K]) and of the square roots
    (for [H0]) of the first primes. *)
Definition primes : list Z :=
  [ 2; 3; 5; 7; 11; 13; 17; 19; 23; 29; 31; 37; 41; 43; 47; 53;
    59; 61; 67; 71; 73; 79; 83; 89; 97; 101; 103; 107; 109; 113; 127; 131;
    137; 139; 149; 151; 157; 163; 167; 173; 179; 181; 191; 193; 197; 199; 211; 223;
    227; 229; 233; 239; 241; 251; 257; 263; 269; 271; 277; 281; 283; 293; 307; 311 ].

(** The integer cube root of [x], one bit at a time below bit [n]. *)
Fixpoint cube_root (n : nat) (x acc : Z) : Z :=
  match n with
  | O => acc
  | S m =>
      let next := acc + 2 ^ Z.of_nat m in
      if next * next * next <=? x then cube_root m x next else cube_root m x acc
  end.

Definition K : list Z :=
  map (fun p => wrap (cube_root 40 (p * 2 ^ 96) 0)) primes.

Definition H0 : list Z :=
  map (fun p => wrap (Z.sqrt (p * 2 ^ 64))) (firstn 8 primes).

(** Big-endian bytes of the [n] low-order bytes of [x]. *)
Fixpoint be_bytes (n : nat) (x : Z) : list Z :=
  match n with
  | O => []
  | S m => Z.land (Z.shiftr x (8 * Z.of_nat m)) 0xff :: be_bytes m x
  end.

(** Padding: a one bit, zeros up to 56 modulo 64, the bit length on 8 bytes. *)
Definition pad (msg : list Z) : list Z :=
  let len := Z.of_nat (length msg) in
  msg ++ [0x80] ++ repeat 0 (Z.to_nat ((55 - len) mod 64)) ++ be_bytes 8 (8 * len).

Fixpoint be_words (n : nat) (bs : list Z) : list Z :=
  match n, bs with
  | S m, b3 :: b2 :: b1 :: b0 :: rest =>
      (((b3 * 256 + b2) * 256 + b1) * 256 + b0) :: be_words m rest
  | _, _ => []
  end.

(** The message schedule, newest word first: [sched] holds W(t-1), W(t-2), ... *)
Fixpoint extend (n : nat) (sched : list Z) : list Z :=
  match n with
  | O => sched
  | S m =>
      let w :=
        plus (plus (sigma1 (nth 1 sched 0)) (nth 6 sched 0))
             (plus (sigma0 (nth 14 sched 0)) (nth 15 sched 0)) in
      extend m (w :: sched)
  end.

Definition schedule (block : list Z) : list Z :=
  rev (extend 48 (rev (be_words 16 block))).

Definition round (v : list Z) (kw : Z * Z) : list Z :=
  match v with
  | [a; b; c; d; e; f; g; h] =>
      let t1 := plus (plus (plus h (Sigma1 e)) (plus (Ch e f g) (fst kw))) (snd kw) in
      let t2 := plus (Sigma0 a) (Maj a b c) in
      [plus t1 t2; a; b; c; plus d t1; e; f; g]
  | _ => v
  end.

Definition compress (hash : list Z) (block : list Z) : list Z :=
  let v := fold_left round (combine K (schedule block)) hash in
  map (fun p => plus (fst p) (snd p)) (combine hash v).

Fixpoint blocks (n : nat) (bs : list Z) : list (list Z) :=
  match n with
  | O => []
  | S m => firstn 64 bs :: blocks m (skipn 64 bs)
  end.

Definition digest (msg : list Z) : list Z :=
  let padded := pad msg in
  let bl := blocks (length padded / 64)%nat padded in
  flat_map (be_bytes 4) (fold_left compress bl H0).

End SHA256.

(** RFC 2104 with a 64-byte block: a longer key is hashed first. *)
Definition hmac_sha256 (key msg : list Z) : list Z :=
  let k0 := if (64 <? Z.of_nat (length key)) then SHA256.digest key else key in
  let k := k0 ++ repeat 0 (64 - length k0)%nat in
  let ipad := map (fun b => Z.lxor b 0x36) k in
  let opad := map (fun b => Z.lxor b 0x5c) k in
  SHA256.digest (opad ++ SHA256.digest (ipad ++ msg)).

(** [crypto.createHmac('sha256', key).update(msg).digest('hex')]. *)
Definition hmac_sha256_hex (key msg : string) : string :=
  hex_of_bytes (hmac_sha256 (bytes_of_string key) (bytes_of_string msg)).

#[local] Set Warnings "-register-all".

(** ** JavaScript values

    The values the handlers meet: what [JSON.parse] builds, plus
    [undefined].  [VNum n] stands for the number [n] when [n] is an
    integer that a double holds exactly (magnitude at most [2^53]); such
    a number prints in plain decimal.  Larger integers, which JavaScript
    rounds and prints with an exponent from [10^21] on, and numbers with a
    fraction or an exponent are outside the model: on them [js_to_string]
    and [JSON_stringify] do not follow the engine.  [VObj] lists the own
    properties of a plain object in the order the engine enumerates them;
    no value is a function. *)
Inductive jsval : Type :=
| VUndef
| VNull
| VBool (b : bool)
| VNum (n : Z)
| VStr (s : string)
| VArr (elems : list jsval)
| VObj (props : list (string * jsval)).

(** What a [throw] carries: [error.message] and [error.response] (status
    and data), the latter [undefined] for a [TypeError] or a network
    failure. *)
Record js_error : Type := mk_error {
  message : string;
  response : option (Z * jsval)
}.

Definition TypeError (msg : string) : js_error :=
  {| message := msg; response := None |}.

(** An expression either yields a value or throws. *)
Inductive outcome (A : Type) : Type :=
| Ok (a : A)
| Raise (e : js_error).
Arguments Ok {A} a.
Arguments Raise {A} e.

Definition obind {A B} (o : outcome A) (k : A -> outcome B) : outcome B :=
  match o with
  | Ok a => k a
  | Raise e => Raise e
  end.

Notation "x <-? e ; k" := (obind e (fun x => k))
  (at level 100, e at next level, right associativity).

(** ToBoolean, as in [!x] and [if (x)]. *)
Definition truthy (v : jsval) : bool :=
  match v with
  | VUndef | VNull => false
  | VBool b => b
  | VNum n => negb (n =? 0)
  | VStr s => negb (String.eqb s EmptyString)
  | VArr _ | VObj _ => true
  end.

Fixpoint own_prop (k : string) (props : list (string * jsval)) : option jsval :=
  match props with
  | [] => None
  | (k', v) :: rest => if String.eqb k k' then Some v else own_prop k rest
  end.

(** [v.k] for the data properties the handlers read (none of them is
    defined on a built-in prototype): reading from [undefined] or [null]
    throws, a missing property reads as [undefined]. *)
Definition get_prop (v : jsval) (k : string) : outcome jsval :=
  match v with
  | VUndef => Raise (TypeError ("Cannot read properties of undefined (reading '" +:+ k +:+ "')"))
  | VNull => Raise (TypeError ("Cannot read properties of null (reading '" +:+ k +:+ "')"))
  | VObj props => Ok (default VUndef (own_prop k props))
  | _ => Ok VUndef
  end.

(** ToString, as a template literal applies it to a substitution.  A plain
    object prints through [Object.prototype.toString] unless an own
    (never callable) [toString] property hides it, and then conversion
    throws; an array joins its elements with commas, [null] and
    [undefined] printing as nothing. *)
Fixpoint js_to_string (v : jsval) : outcome string :=
  match v with
  | VUndef => Ok "undefined"
  | VNull => Ok "null"
  | VBool true => Ok "true"
  | VBool false => Ok "false"
  | VNum n => Ok (pretty n)
  | VStr s => Ok s
  | VArr elems =>
      (fix join (l : list jsval) : outcome string :=
         match l with
         | [] => Ok EmptyString
         | x :: rest =>
             s <-? match x with
                   | VUndef | VNull => Ok EmptyString
                   | _ => js_to_string x
                   end;
             match rest with
             | [] => Ok s
             | _ :: _ => r <-? join rest; Ok (s +:+ "," +:+ r)
             end
         end) elems
  | VObj props =>
      match own_prop "toString" props with
      | Some _ => Raise (TypeError "Cannot convert object to primitive value")
      | None => Ok "[object Object]"
      end
  end.

(** RequireObjectCoercible, as [const { repo_owner, ... } = req.body]
    applies it before reading the properties. *)
Definition coercible (v : jsval) : outcome unit :=
  match v with
  | VUndef =>
      Raise (TypeError "Cannot destructure property 'repo_owner' of 'req.body' as it is undefined.")
  | VNull =>
      Raise (TypeError "Cannot destructure property 'repo_owner' of 'req.body' as it is null.")
  | _ => Ok tt
  end.

(** A template literal: text pieces and substitutions, left to right. *)
Fixpoint template (parts : list (string + jsval)) : outcome string :=
  match parts with
  | [] => Ok EmptyString
  | inl text :: rest => r <-? template rest; Ok (text +:+ r)
  | inr v :: rest => s <-? js_to_string v; r <-? template rest; Ok (s +:+ r)
  end.

(** ** Strings: [replace] and [split] *)

Fixpoint strip_prefix (p s : string) : option string :=
  match p, s with
  | EmptyString, _ => Some s
  | String a p', String b s' => if Ascii.eqb a b then strip_prefix p' s' else None
  | String _ _, EmptyString => None
  end.

(** [s.replace(pat, rep)] with a string pattern and a replacement without
    [$]: the first occurrence of [pat], wherever it is, becomes [rep]. *)
Fixpoint replace_first (pat rep s : string) : string :=
  match strip_prefix pat s with
  | Some rest => rep +:+ rest
  | None =>
      match s with
      | EmptyString => EmptyString
      | String c s' => String c (replace_first pat rep s')
      end
  end.

(** [v.replace(pat, rep)]: only a string has the method. *)
Definition call_replace (v : jsval) (pat rep : string) : outcome string :=
  match v with
  | VStr s => Ok (replace_first pat rep s)
  | VUndef => Raise (TypeError "Cannot read properties of undefined (reading 'replace')")
  | VNull => Raise (TypeError "Cannot read properties of null (reading 'replace')")
  | _ => Raise (TypeError "payload.ref.replace is not a function")
  end.

(** [s.split(sep)] for a one-character separator. *)
Fixpoint split (sep : ascii) (s : string) : list string :=
  match s with
  | EmptyString => [EmptyString]
  | String c s' =>
      if Ascii.eqb c sep then EmptyString :: split sep s'
      else match split sep s' with
           | piece :: pieces => String c piece :: pieces
           | [] => [String c EmptyString]
           end
  end.

(** [v.split(sep)]: only a string has the method. *)
Definition call_split (v : jsval) (sep : ascii) : outcome (list string) :=
  match v with
  | VStr s => Ok (split sep s)
  | VUndef => Raise (TypeError "Cannot read properties of undefined (reading 'split')")
  | VNull => Raise (TypeError "Cannot read properties of null (reading 'split')")
  | _ => Raise (TypeError "repoFullName.split is not a function")
  end.

(** An array element read by destructuring: [undefined] past the end. *)
Definition element (i : nat) (l : list string) : jsval :=
  match l !! i with
  | Some s => VStr s
  | None => VUndef
  end.

(** ** JSON text: [JSON.stringify] and [JSON.parse] *)

Definition dquote : ascii := "034"%char.
Definition bslash : ascii := "092"%char.
Definition code (c : ascii) : Z := Z.of_N (N_of_ascii c).
Definition char (n : Z) : ascii := ascii_of_N (Z.to_N n).
Definition str1 (c : ascii) : string := String c EmptyString.

(** QuoteJSONString: the quote, the backslash and the control characters
    are escaped, every other byte is copied. *)
Definition escape (c : ascii) : string :=
  let n := code c in
  if n =? 34 then String bslash (str1 dquote)
  else if n =? 92 then String bslash (str1 bslash)
  else if n =? 8 then String bslash "b"
  else if n =? 9 then String bslash "t"
  else if n =? 10 then String bslash "n"
  else if n =? 12 then String bslash "f"
  else if n =? 13 then String bslash "r"
  else if n <? 32 then String bslash "u00" +:+ String (hex_digit (n / 16)) (str1 (hex_digit (n mod 16)))
  else str1 c.

Fixpoint escape_all (s : string) : string :=
  match s with
  | EmptyString => EmptyString
  | String c rest => escape c +:+ escape_all rest
  end.

Definition quote (s : string) : string :=
  String dquote (escape_all s +:+ str1 dquote).

(** [JSON.stringify(v)] without indentation; [None] is [undefined].  Inside
    an array [undefined] prints as [null], inside an object the property is
    left out. *)
Fixpoint JSON_stringify (v : jsval) : option string :=
  match v with
  | VUndef => None
  | VNull => Some "null"
  | VBool true => Some "true"
  | VBool false => Some "false"
  | VNum n => Some (pretty n)
  | VStr s => Some (quote s)
  | VArr elems =>
      Some ("[" +:+
        String.concat ","
          ((fix items (l : list jsval) : list string :=
              match l with
              | [] => []
              | x :: rest => default "null" (JSON_stringify x) :: items rest
              end) elems) +:+ "]")
  | VObj props =>
      Some ("{" +:+
        String.concat ","
          ((fix members (l : list (string * jsval)) : list string :=
              match l with
              | [] => []
              | (k, x) :: rest =>
                  match JSON_stringify x with
                  | Some s => (quote k +:+ ":" +:+ s) :: members rest
                  | None => members rest
                  end
              end) props) +:+ "}")
  end.

(** [hmac.update(data)] takes a string; [undefined] is refused. *)
Definition hmac_input (data : option string) : outcome string :=
  match data with
  | Some text => Ok text
  | None =>
      Raise (TypeError "The data argument must be of type string or an instance of Buffer, TypedArray, or DataView. Received undefined")
  end.

Definition is_digit (c : ascii) : bool := (48 <=? code c) && (code c <=? 57).

Fixpoint digits_value (acc : Z) (s : string) : option Z :=
  match s with
  | EmptyString => Some acc
  | String c rest => if is_digit c then digits_value (10 * acc + (code c - 48)) rest else None
  end.

(** A property key that is an array index: the canonical decimal text of
    an integer below [2^32 - 1].  Such keys are enumerated first, in
    ascending order; the others follow in creation order. *)
Definition array_index (k : string) : option Z :=
  match k with
  | EmptyString => None
  | String c rest =>
      if (code c =? 48) && negb (String.eqb rest EmptyString) then None
      else match digits_value 0 k with
           | Some n => if n <? 2 ^ 32 - 1 then Some n else None
           | None => None
           end
  end.

Fixpoint obj_replace (k : string) (v : jsval) (props : list (string * jsval)) :=
  match props with
  | [] => []
  | (k', v') :: rest =>
      if String.eqb k k' then (k, v) :: rest else (k', v') :: obj_replace k v rest
  end.

Fixpoint obj_insert_index (i : Z) (k : string) (v : jsval) (props : list (string * jsval)) :=
  match props with
  | [] => [(k, v)]
  | (k', v') :: rest =>
      match array_index k' with
      | Some j => if j <? i then (k', v') :: obj_insert_index i k v rest else (k, v) :: props
      | None => (k, v) :: props
      end
  end.

(** CreateDataProperty on a plain object: an existing key keeps its place
    and takes the new value. *)
Definition obj_set (k : string) (v : jsval) (props : list (string * jsval)) :=
  match own_prop k props with
  | Some _ => obj_replace k v props
  | None =>
      match array_index k with
      | Some i => obj_insert_index i k v props
      | None => props ++ [(k, v)]
      end
  end.

Definition is_ws (c : ascii) : bool :=
  (code c =? 32) || (code c =? 9) || (code c =? 10) || (code c =? 13).

Fixpoint skip_ws (s : string) : string :=
  match s with
  | EmptyString => EmptyString
  | String c rest => if is_ws c then skip_ws rest else s
  end.

Definition hex_value (c : ascii) : option Z :=
  let n := code c in
  if (48 <=? n) && (n <=? 57) then Some (n - 48)
  else if (97 <=? n) && (n <=? 102) then Some (n - 87)
  else if (65 <=? n) && (n <=? 70) then Some (n - 55)
  else None.

(** UTF-8 for a code point of the basic plane; a surrogate has no encoding
    and is outside the model. *)
Definition utf8 (cp : Z) : option string :=
  if cp <? 0x80 then Some (str1 (char cp))
  else if cp <? 0x800 then
    Some (String (char (0xc0 + cp / 64)) (str1 (char (0x80 + cp mod 64))))
  else if (0xd800 <=? cp) && (cp <=? 0xdfff) then None
  else
    Some (String (char (0xe0 + cp / 4096))
           (String (char (0x80 + (cp / 64) mod 64)) (str1 (char (0x80 + cp mod 64))))).

Definition unescape (c : ascii) : option ascii :=
  let n := code c in
  if (n =? 34) || (n =? 92) || (n =? 47) then Some c
  else if n =? 98 then Some (char 8)
  else if n =? 102 then Some (char 12)
  else if n =? 110 then Some (char 10)
  else if n =? 114 then Some (char 13)
  else if n =? 116 then Some (char 9)
  else None.

(** The characters of a string literal after its opening quote, and what
    follows the closing quote. *)
Fixpoint parse_chars (s : string) : option (string * string) :=
  match s with
  | EmptyString => None
  | String c rest =>
      if Ascii.eqb c dquote then Some (EmptyString, rest)
      else if Ascii.eqb c bslash then
        match rest with
        | String e rest1 =>
            if Ascii.eqb e "u" then
              match rest1 with
              | String h1 (String h2 (String h3 (String h4 rest2))) =>
                  a ← hex_value h1; b ← hex_value h2; c ← hex_value h3; d ← hex_value h4;
                  enc ← utf8 (((a * 16 + b) * 16 + c) * 16 + d);
                  '(t, r) ← parse_chars rest2;
                  Some (enc +:+ t, r)
              | _ => None
              end
            else
              ch ← unescape e;
              '(t, r) ← parse_chars rest1;
              Some (String ch t, r)
        | EmptyString => None
        end
      else if code c <? 32 then None
      else '(t, r) ← parse_chars rest; Some (String c t, r)
  end.

Fixpoint take_digits (s : string) : string * string :=
  match s with
  | String c rest =>
      if is_digit c then let '(ds, r) := take_digits rest in (String c ds, r) else (EmptyString, s)
  | EmptyString => (EmptyString, EmptyString)
  end.

(** An integer literal; a fraction or an exponent is outside the model. *)
Definition parse_number (s : string) : option (jsval * string) :=
  let '(neg, s1) :=
    match s with
    | String c rest => if Ascii.eqb c "-" then (true, rest) else (false, s)
    | EmptyString => (false, s)
    end in
  let '(ds, rest) := take_digits s1 in
  match ds with
  | EmptyString => None
  | String d more =>
      if (code d =? 48) && negb (String.eqb more EmptyString) then None
      else
        match rest with
        | String c _ =>
            if Ascii.eqb c "." || Ascii.eqb c "e" || Ascii.eqb c "E" then None
            else n ← digits_value 0 ds; Some (VNum (if neg then - n else n), rest)
        | EmptyString => n ← digits_value 0 ds; Some (VNum (if neg then - n else n), rest)
        end
  end.

Fixpoint parse_value (fuel : nat) (s : string) : option (jsval * string) :=
  match fuel with
  | O => None
  | S fuel' =>
      match skip_ws s with
      | EmptyString => None
      | String c rest as s0 =>
          if Ascii.eqb c "{" then
            match skip_ws rest with
            | String c1 rest1 as s1 =>
                if Ascii.eqb c1 "}" then Some (VObj [], rest1) else parse_members fuel' s1 []
            | EmptyString => None
            end
          else if Ascii.eqb c "[" then
            match skip_ws rest with
            | String c1 rest1 as s1 =>
                if Ascii.eqb c1 "]" then Some (VArr [], rest1) else parse_elements fuel' s1 []
            | EmptyString => None
            end
          else if Ascii.eqb c dquote then
            '(str, r) ← parse_chars rest; Some (VStr str, r)
          else
            match strip_prefix "true" s0, strip_prefix "false" s0, strip_prefix "null" s0 with
            | Some r, _, _ => Some (VBool true, r)
            | _, Some r, _ => Some (VBool false, r)
            | _, _, Some r => Some (VNull, r)
            | None, None, None => parse_number s0
            end
      end
  end
with parse_elements (fuel : nat) (s : string) (acc : list jsval) : option (jsval * string) :=
  match fuel with
  | O => None
  | S fuel' =>
      '(v, r) ← parse_value fuel' s;
      match skip_ws r with
      | String c r' =>
          if Ascii.eqb c "," then parse_elements fuel' r' (v :: acc)
          else if Ascii.eqb c "]" then Some (VArr (rev (v :: acc)), r')
          else None
      | EmptyString => None
      end
  end
with parse_members (fuel : nat) (s : string) (acc : list (string * jsval)) : option (jsval * string) :=
  match fuel with
  | O => None
  | S fuel' =>
      match skip_ws s with
      | String q r =>
          if Ascii.eqb q dquote then
            '(k, r1) ← parse_chars r;
            match skip_ws r1 with
            | String colon r2 =>
                if Ascii.eqb colon ":" then
                  '(v, r3) ← parse_value fuel' r2;
                  let acc' := obj_set k v acc in
                  match skip_ws r3 with
                  | String c r4 =>
                      if Ascii.eqb c "," then parse_members fuel' r4 acc'
                      else if Ascii.eqb c "}" then Some (VObj acc', r4)
                      else None
                  | EmptyString => None
                  end
                else None
            | EmptyString => None
            end
          else None
      | EmptyString => None
      end
  end.

(** [JSON.parse(text)]; [None] is a [SyntaxError] or a text outside the
    model.  The fuel bounds the depth of the descent; a step into a value
    or along a list is paid for by a character of the text, so its length
    is ample. *)
Definition JSON_parse (text : string) : option jsval :=
  match parse_value (S (String.length text)) text with
  | Some (v, rest) =>
      match skip_ws rest with
      | EmptyString => Some v
      | String _ _ => None
      end
  | None => None
  end.

(** [express.json()] on a JSON request with a body: in its default strict
    mode the text must start with an object or an array; what it parses
    becomes [req.body].  The function is partial: [Some] is what the
    middleware hands to the handler, but [None] also covers what the model
    leaves out (a request without a body, for which Express 4 supplies an
    empty object, numbers outside [VNum], escaped surrogate pairs, the
    size limit).  It is used on given texts only. *)
Definition express_json (raw : string) : option jsval :=
  match skip_ws raw with
  | String c _ => if Ascii.eqb c "{" || Ascii.eqb c "[" then JSON_parse raw else None
  | EmptyString => None
  end.

(** ** The handlers' monad *)

Inductive res_body : Type :=
| Text (s : string)   (* res.send(text) *)
| Json (v : jsval).   (* res.json(value) *)

Record http_response : Type := mk_response {
  status : Z;
  content : res_body
}.

(** The outbound requests.  Each one carries the fixed credentials of the
    configuration, which are left out.
    - [CreateWebhook owner repo url secret] is
      [octokit.repos.createWebhook] with content type json, the push event
      and [active: true];
    - [AxiosGet url] is [axios.get(url, {auth})];
    - [AxiosPost url params] is [axios.post(url, null, {auth, params})]. *)
Inductive call : Type :=
| CreateWebhook (owner repo : jsval) (url secret : string)
| AxiosGet (url : string)
| AxiosPost (url : string) (params : list (string * jsval)).

Record request : Type := mk_request {
  headers : gmap string string;
  body : jsval
}.

(** What one run of a handler reads and writes: the shared [webhookSecrets]
    map, the outbound requests issued so far, the response sent. *)
Record state : Type := mk_state {
  webhookSecrets : gmap string string;
  sent : list call;
  reply : option http_response
}.

(** How a block ends: it falls through, throws, or executes [return]. *)
Inductive completion (A : Type) : Type :=
| Normal (a : A)
| Throw (e : js_error)
| Returned.
Arguments Normal {A} a.
Arguments Throw {A} e.
Arguments Returned {A}.

Definition M (A : Type) : Type := state -> completion A * state.

Definition pure {A} (a : A) : M A := fun st => (Normal a, st).

Definition bind {A B} (m : M A) (k : A -> M B) : M B :=
  fun st =>
    match m st with
    | (Normal a, st') => k a st'
    | (Throw e, st') => (Throw e, st')
    | (Returned, st') => (Returned, st')
    end.

Notation "x <- e ; k" := (bind e (fun x => k))
  (at level 100, e at next level, right associativity).
Notation "e ;; k" := (bind e (fun _ => k))
  (at level 100, right associativity).

Definition eval {A} (o : outcome A) : M A :=
  fun st =>
    match o with
    | Ok a => (Normal a, st)
    | Raise e => (Throw e, st)
    end.

Definition throw {A} (e : js_error) : M A := fun st => (Throw e, st).

Definition return_ {A} : M A := fun st => (Returned, st).

(** [try { block } catch (error) { handler }]: a [return] inside the block
    leaves the function. *)
Definition try_catch {A} (block : M A) (handler : js_error -> M A) : M A :=
  fun st =>
    match block st with
    | (Throw e, st') => handler e st'
    | other => other
    end.

(** [res.status(code).send(text)] and [res.status(code).json(value)]. *)
Definition respond (code : Z) (b : res_body) : M unit :=
  fun st =>
    (Normal tt,
     {| webhookSecrets := webhookSecrets st; sent := sent st;
        reply := Some {| status := code; content := b |} |}).

(** [webhookSecrets.set(key, value)]. *)
Definition secrets_set (key value : string) : M unit :=
  fun st =>
    (Normal tt,
     {| webhookSecrets := <[key := value]> (webhookSecrets st); sent := sent st;
        reply := reply st |}).

(** [webhookSecrets.get(key)]: keys are compared without conversion, and
    every key of the map is a string. *)
Definition secrets_get (key : jsval) : M (option string) :=
  fun st =>
    (Normal match key with
            | VStr k => webhookSecrets st !! k
            | _ => None
            end, st).

(** [`odoo-deploy-${user_id}`] and
    [`${JENKINS_URL}/job/${jobName}/buildWithParameters`] once the
    substitutions are strings. *)
Definition job_name (user : string) : string := "odoo-deploy-" +:+ user.

Definition build_url (base job : string) : string :=
  base +:+ "/job/" +:+ job +:+ "/buildWithParameters".

Section Handlers.

(** What the remote systems answer: the awaited promise resolves with a
    value or rejects with an error. *)
Variable world : call -> outcome jsval.

(** The text that [${JENKINS_URL}] and [${WEBHOOK_BASE_URL}] interpolate. *)
Variable JENKINS_URL : string.
Variable WEBHOOK_BASE_URL : string.

(** [await] on an outbound request. *)
Definition await (c : call) : M jsval :=
  fun st =>
    let st' := {| webhookSecrets := webhookSecrets st; sent := sent st ++ [c];
                  reply := reply st |} in
    match world c with
    | Ok v => (Normal v, st')
    | Raise e => (Throw e, st')
    end.

(** [ensureJenkinsJobExists(jobName)]: a 404 is logged and swallowed, any
    other failure is thrown again. *)
Definition ensureJenkinsJobExists (jobName : string) : M unit :=
  try_catch
    (await (AxiosGet (JENKINS_URL +:+ "/job/" +:+ jobName +:+ "/api/json")) ;;
     pure tt)
    (fun error =>
       match response error with
       | Some (code, _) => if code =? 404 then pure tt else throw error
       | None => throw error
       end).

(** [app.post('/add-repo', ...)]; [random] is what
    [crypto.randomBytes(32)] draws. *)
Definition add_repo (random : list Z) (req : request) : M unit :=
  (* const { repo_owner, repo_name, branch, user_id } = req.body; *)
  _ <- eval (coercible (body req));
  repo_owner <- eval (get_prop (body req) "repo_owner");
  repo_name <- eval (get_prop (body req) "repo_name");
  branch <- eval (get_prop (body req) "branch");
  user_id <- eval (get_prop (body req) "user_id");
  if negb (truthy repo_owner) || negb (truthy repo_name)
     || negb (truthy branch) || negb (truthy user_id)
  then
    respond 400 (Json (VObj [("error",
      VStr "Missing required fields: repo_owner, repo_name, branch, user_id")])) ;;
    return_
  else
    try_catch
      ((* console.log(`... ${repo_owner}/${repo_name}`) *)
       _ <- eval (template [inr repo_owner; inl "/"; inr repo_name]);
       let webhookSecret := hex_of_bytes random in
       webhookKey <- eval (template [inr repo_owner; inl "/"; inr repo_name]);
       webhook <- await (CreateWebhook repo_owner repo_name
                           (WEBHOOK_BASE_URL +:+ "/webhook/github") webhookSecret);
       (* console.log(`... ${webhook.data.id}`) *)
       data <- eval (get_prop webhook "data");
       id <- eval (get_prop data "id");
       _ <- eval (js_to_string id);
       secrets_set webhookKey webhookSecret ;;
       jenkinsJobName <- eval (template [inl "odoo-deploy-"; inr user_id]);
       ensureJenkinsJobExists jenkinsJobName ;;
       let jenkinsBuildUrl := build_url JENKINS_URL jenkinsJobName in
       jenkinsResponse <- await (AxiosPost jenkinsBuildUrl
                                   [("REPO_OWNER", repo_owner); ("REPO_NAME", repo_name);
                                    ("BRANCH", branch); ("USER_ID", user_id)]);
       (* console.log(`... ${jenkinsResponse.status}`) *)
       code <- eval (get_prop jenkinsResponse "status");
       _ <- eval (js_to_string code);
       data1 <- eval (get_prop webhook "data");
       webhook_id <- eval (get_prop data1 "id");
       data2 <- eval (get_prop webhook "data");
       config <- eval (get_prop data2 "config");
       webhook_url <- eval (get_prop config "url");
       repository <- eval (template [inr repo_owner; inl "/"; inr repo_name]);
       respond 200 (Json (VObj
         [("success", VBool true);
          ("message", VStr "Repository added successfully");
          ("data", VObj [("webhook_id", webhook_id);
                         ("webhook_url", webhook_url);
                         ("jenkins_job", VStr jenkinsJobName);
                         ("repository", VStr repository);
                         ("branch", branch)])])))
      (fun error =>
         match response error with
         | Some (code, details) =>
             respond code (Json (VObj [("error", VStr (message error));
                                       ("details", details)])) ;;
             return_
         | None =>
             respond 500 (Json (VObj [("error", VStr "Internal server error");
                                      ("message", VStr (message error))]))
         end).

(** [app.post('/webhook/github', ...)]. *)
Definition webhook_github (req : request) : M unit :=
  try_catch
    (let signature := headers req !! "x-hub-signature-256" in
     let event := headers req !! "x-github-event" in
     if negb (bool_decide (event = Some "push")) then
       respond 200 (Text "Event ignored") ;; return_
     else
       let payload := body req in
       repository <- eval (get_prop payload "repository");
       repoFullName <- eval (get_prop repository "full_name");
       ref <- eval (get_prop payload "ref");
       branch <- eval (call_replace ref "refs/heads/" EmptyString);
       commitSha <- eval (get_prop payload "after");
       (* console.log(`... ${repoFullName} on ${branch}`) *)
       _ <- eval (template [inr repoFullName; inl " on "; inr (VStr branch)]);
       webhookSecret <- secrets_get repoFullName;
       match webhookSecret with
       | None | Some EmptyString =>
           (* !webhookSecret: undefined, or the empty string *)
           respond 404 (Text "Repository not registered") ;; return_
       | Some secret =>
           text <- eval (hmac_input (JSON_stringify (body req)));
           let digest := "sha256=" +:+ hmac_sha256_hex secret text in
           if negb (bool_decide (signature = Some digest)) then
             respond 401 (Text "Invalid signature") ;; return_
           else
             parts <- eval (call_split repoFullName "/");
             let repo_owner := element 0 parts in
             let repo_name := element 1 parts in
             let user_id := repo_owner in
             jenkinsJobName <- eval (template [inl "odoo-deploy-"; inr user_id]);
             await (AxiosPost (build_url JENKINS_URL jenkinsJobName)
                      [("REPO_OWNER", repo_owner); ("REPO_NAME", repo_name);
                       ("BRANCH", VStr branch); ("USER_ID", user_id);
                       ("COMMIT_SHA", commitSha)]) ;;
             respond 200 (Text "Webhook processed")
       end)
    (fun error => respond 500 (Text "Internal error")).

(** One request against the shared map: the handler starts with nothing
    sent and no response. *)
Definition serve (handler : M unit) (secrets : gmap string string) : completion unit * state :=
  handler {| webhookSecrets := secrets; sent := []; reply := None |}.

End Handlers.

(** ** The vocabulary of the properties *)

(** The signature the receiver recomputes. *)
Definition expected_signature (secret text : string) : string :=
  "sha256=" +:+ hmac_sha256_hex secret text.

(** A push event, as the data model has it: the event header says push and
    the payload carries a repository full name and a ref, both strings.
    (On a payload without them the handler throws before it looks the
    secret up, and answers 500.) *)
Definition push_event (req : request) (name ref : string) : Prop :=
  headers req !! "x-github-event" = Some "push" /\
  exists repository,
    get_prop (body req) "repository" = Ok repository /\
    get_prop repository "full_name" = Ok (VStr name) /\
    get_prop (body req) "ref" = Ok (VStr ref).

(** Every stored secret has the 64 characters of the hex text of 32 random
    bytes; this holds of every map the service can reach (see
    [reachable_secrets_ok]), and it is why [!webhookSecret] tests the
    presence of an entry. *)
Definition secrets_ok (secrets : gmap string string) : Prop :=
  forall key secret, secrets !! key = Some secret -> String.length secret = 64%nat.

(** The maps the service can hold: it starts empty and serves requests. *)
Inductive reachable : gmap string string -> Prop :=
| reach_start : reachable ∅
| reach_add_repo world jenkins base random req secrets :
    reachable secrets ->
    length random = 32%nat ->
    reachable (webhookSecrets (snd (serve (add_repo world jenkins base random req) secrets)))
| reach_webhook world jenkins req secrets :
    reachable secrets ->
    reachable (webhookSecrets (snd (serve (webhook_github world jenkins req) secrets))).

Definition missing_fields : http_response :=
  {| status := 400;
     content := Json (VObj [("error",
       VStr "Missing required fields: repo_owner, repo_name, branch, user_id")]) |}.

Definition text_reply (code : Z) (text : string) : option http_response :=
  Some {| status := code; content := Text text |}.

Definition registration_fields : list string :=
  ["repo_owner"; "repo_name"; "branch"; "user_id"].

(** The key [`${repo_owner}/${repo_name}`] for string fields. *)
Definition full_name (owner name : string) : string := owner +:+ "/" +:+ name.

(** A valid registration input: the four fields are non-empty strings. *)
Definition registration (req : request) (owner name branch user : string) : Prop :=
  get_prop (body req) "repo_owner" = Ok (VStr owner) /\
  get_prop (body req) "repo_name" = Ok (VStr name) /\
  get_prop (body req) "branch" = Ok (VStr branch) /\
  get_prop (body req) "user_id" = Ok (VStr user) /\
  owner <> EmptyString /\ name <> EmptyString /\
  branch <> EmptyString /\ user <> EmptyString.

(** The response of a successful [/add-repo] call. *)
Definition succeeded (final : state) : Prop :=
  exists data,
    reply final
    = Some {| status := 200;
              content := Json (VObj [("success", VBool true);
                                     ("message", VStr "Repository added successfully");
                                     ("data", data)]) |}.

(** What the [catch] block of [/add-repo] answers for an error. *)
Definition error_reply (e : js_error) : http_response :=
  match response e with
  | Some (code, details) =>
      {| status := code;
         content := Json (VObj [("error", VStr (message e)); ("details", details)]) |}
  | None =>
      {| status := 500;
         content := Json (VObj [("error", VStr "Internal server error");
                                ("message", VStr (message e))]) |}
  end.

(** The value [octokit.repos.createWebhook] resolves with when the hook
    was created: it has a [data] object whose [id] can be printed. *)
Definition created (hook : jsval) : Prop :=
  exists data id text,
    get_prop hook "data" = Ok data /\ get_prop data "id" = Ok id /\
    js_to_string id = Ok text.

(** The job lookup does not stop the registration: the job exists, or the
    lookup answers 404. *)
Definition job_checked (o : outcome jsval) : Prop :=
  match o with
  | Ok _ => True
  | Raise e => exists details, response e = Some (404, details)
  end.

Fixpoint no_slash (s : string) : bool :=
  match s with
  | EmptyString => true
  | String c rest => negb (Ascii.eqb c "/") && no_slash rest
  end.

(** The first piece of a full name, which the receiver takes as owner and
    as user identifier. *)
Definition owner_part (name : string) : string := hd EmptyString (split "/" name).

(** The build trigger of the receiver for a push to [name]. *)
Definition push_trigger (jenkins name branch : string) (sha : jsval) : call :=
  let parts := split "/" name in
  AxiosPost (build_url jenkins (job_name (owner_part name)))
    [("REPO_OWNER", element 0 parts); ("REPO_NAME", element 1 parts);
     ("BRANCH", VStr branch); ("USER_ID", element 0 parts); ("COMMIT_SHA", sha)].

(** The calls of a registration that reaches the initial build trigger. *)
Definition hook_call (base owner name secret : string) : call :=
  CreateWebhook (VStr owner) (VStr name) (base +:+ "/webhook/github") secret.

Definition job_call (jenkins user : string) : call :=
  AxiosGet (jenkins +:+ "/job/" +:+ job_name user +:+ "/api/json").

Definition first_build_call (jenkins owner name branch user : string) : call :=
  AxiosPost (build_url jenkins (job_name user))
    [("REPO_OWNER", VStr owner); ("REPO_NAME", VStr name);
     ("BRANCH", VStr branch); ("USER_ID", VStr user)].

(** ** Sample data: the acme/widget registration and a push to it *)

Definition sample_random : list Z := map Z.of_nat (seq 1 32).

Definition sample_secret : string := hex_of_bytes sample_random.

Definition sample_secrets : gmap string string := {[ "acme/widget" := sample_secret ]}.

Definition sample_registration : request :=
  {| headers := ∅;
     body := VObj [("repo_owner", VStr "acme"); ("repo_name", VStr "widget");
                   ("branch", VStr "main"); ("user_id", VStr "u123")] |}.

Definition sample_payload : jsval :=
  VObj [("ref", VStr "refs/heads/main");
        ("after", VStr "9fceb02d0ae598e95dc970b74767f19372d61af8");
        ("repository", VObj [("full_name", VStr "acme/widget")])].

Definition sample_text : string := default EmptyString (JSON_stringify sample_payload).

Definition push_request (signature : string) (payload : jsval) : request :=
  {| headers := {[ "x-github-event" := "push"; "x-hub-signature-256" := signature ]};
     body := payload |}.

Definition sample_push : request :=
  push_request (expected_signature sample_secret sample_text) sample_payload.

Definition sample_hook : jsval :=
  VObj [("status", VNum 201);
        ("data", VObj [("id", VNum 12345678);
                       ("config", VObj [("url", VStr "https://relay.example/webhook/github")])])].

(** A world in which every remote call succeeds. *)
Definition sample_world (c : call) : outcome jsval :=
  match c with
  | CreateWebhook _ _ _ _ => Ok sample_hook
  | AxiosGet _ => Ok (VObj [("status", VNum 200)])
  | AxiosPost _ _ => Ok (VObj [("status", VNum 201)])
  end.

Definition build_failure : js_error :=
  {| message := "Request failed with status code 503";
     response := Some (503, VStr "Service Unavailable") |}.

(** A world in which the build system refuses every trigger. *)
Definition failing_build_world (c : call) : outcome jsval :=
  match c with
  | AxiosPost _ _ => Raise build_failure
  | _ => sample_world c
  end.

(** The sample payload as a sender may write it: a blank after every colon
    and comma. *)
Definition spaced_body : string :=
  "{" +:+ quote "ref" +:+ ": " +:+ quote "refs/heads/main" +:+ ", "
  +:+ quote "after" +:+ ": " +:+ quote "9fceb02d0ae598e95dc970b74767f19372d61af8" +:+ ", "
  +:+ quote "repository" +:+ ": {" +:+ quote "full_name" +:+ ": " +:+ quote "acme/widget"
  +:+ "}}".

(** A push by a user whose name has an accent, and its body with the
    accented letter written as the escape [\u00e9], which JSON allows and
    which parses to the two bytes of the letter. *)
Definition accented_payload : jsval :=
  VObj [("ref", VStr "refs/heads/main");
        ("after", VStr "9fceb02d0ae598e95dc970b74767f19372d61af8");
        ("repository", VObj [("full_name", VStr "acme/widget")]);
        ("pusher", VObj [("name", VStr ("Ren" +:+ String (char 195) (str1 (char 169))))])].

Definition escaped_body : string :=
  "{" +:+ quote "ref" +:+ ":" +:+ quote "refs/heads/main" +:+ ","
  +:+ quote "after" +:+ ":" +:+ quote "9fceb02d0ae598e95dc970b74767f19372d61af8" +:+ ","
  +:+ quote "repository" +:+ ":{" +:+ quote "full_name" +:+ ":" +:+ quote "acme/widget"
  +:+ "}," +:+ quote "pusher" +:+ ":{" +:+ quote "name" +:+ ":"
  +:+ String dquote ("Ren" +:+ String bslash "u00e9" +:+ str1 dquote) +:+ "}}".

Definition sample_jenkins : string := "http://jenkins.example".

Definition sample_base : string := "https://relay.example".

Definition ping_request : request :=
  {| headers := {[ "x-github-event" := "ping" ]}; body := VUndef |}.

Definition fields_without_branch : list (string * jsval) :=
  [("repo_owner", VStr "acme"); ("repo_name", VStr "widget"); ("user_id", VStr "u123")].

Definition fields_with_empty_name : list (string * jsval) :=
  [("repo_owner", VStr "acme"); ("repo_name", VStr EmptyString);
   ("branch", VStr "main"); ("user_id", VStr "u123")].

Definition second_random : list Z := map Z.of_nat (seq 101 32).

(** Two registrations of acme/widget in a row, then the sample push, which
    is signed under the first secret. *)
Definition first_run : state :=
  snd (serve (add_repo sample_world sample_jenkins sample_base sample_random
                sample_registration) ∅).

Definition second_run : state :=
  snd (serve (add_repo sample_world sample_jenkins sample_base second_random
                sample_registration) (webhookSecrets first_run)).

Definition stale_push_run : state :=
  snd (serve (webhook_github sample_world sample_jenkins sample_push)
         (webhookSecrets second_run)).

(** A registration whose initial build trigger is refused. *)
Definition failed_run : state :=
  snd (serve (add_repo failing_build_world sample_jenkins sample_base sample_random
                sample_registration) ∅).

(** ** The health endpoint and further vocabulary *)

(** [app.get('/health', ...)]; [now] is what [new Date().toISOString()]
    reads off the clock.  The keys are listed in the order of the model's
    map; the insertion order of the JavaScript [Map] is not modelled. *)
Definition health (now : string) : M unit :=
  fun st =>
    respond 200
      (Json (VObj [("status", VStr "ok");
                   ("timestamp", VStr now);
                   ("registered_repos",
                    VArr (map (fun entry => VStr (fst entry))
                            (map_to_list (webhookSecrets st))))])) st.

(** [pat] occurs somewhere in [s]. *)
Fixpoint contains (pat s : string) : bool :=
  match strip_prefix pat s with
  | Some _ => true
  | None =>
      match s with
      | EmptyString => false
      | String _ s' => contains pat s'
      end
  end.

Definition is_build_trigger (c : call) : bool :=
  match c with
  | AxiosPost _ _ => true
  | _ => false
  end.


(** A push of the tag v1.0, signed under the sample secret. *)
Definition tag_payload : jsval :=
  VObj [("ref", VStr "refs/tags/v1.0");
        ("after", VStr "9fceb02d0ae598e95dc970b74767f19372d61af8");
        ("repository", VObj [("full_name", VStr "acme/widget")])].

Definition tag_push : request :=
  push_request
    (expected_signature sample_secret (default EmptyString (JSON_stringify tag_payload)))
    tag_payload.

(** A push payload without a ref. *)
Definition fields_without_ref : list (string * jsval) :=
  [("after", VStr "9fceb02d0ae598e95dc970b74767f19372d61af8");
   ("repository", VObj [("full_name", VStr "acme/widget")])].

(** The success response of [/add-repo] for string fields. *)
Definition registered_reply (id url : jsval) (owner name branch user : string) : http_response :=
  {| status := 200;
     content :=
       Json (VObj [("success", VBool true);
                   ("message", VStr "Repository added successfully");
                   ("data", VObj [("webhook_id", id);
                                  ("webhook_url", url);
                                  ("jenkins_job", VStr (job_name user));
                                  ("repository", VStr (full_name owner name));
                                  ("branch", VStr branch)])]) |}.

(** The hook object has the fields the success response reads. *)
Definition hook_fields (hook id url : jsval) : Prop :=
  exists data config text,
    get_prop hook "data" = Ok data /\ get_prop data "id" = Ok id /\
    js_to_string id = Ok text /\
    get_prop data "config" = Ok config /\ get_prop config "url" = Ok url.

(** The answer of the build system can be logged: it is an object and its
    status prints. *)
Definition logged_status (answer : jsval) : Prop :=
  exists code text, get_prop answer "status" = Ok code /\ js_to_string code = Ok text.

(** A world in which GitHub refuses the hook. *)
Definition hook_refusal : js_error :=
  {| message := "Not Found";
     response := Some (404, VObj [("message", VStr "Not Found")]) |}.

Definition refusing_github_world (c : call) : outcome jsval :=
  match c with
  | CreateWebhook _ _ _ _ => Raise hook_refusal
  | _ => sample_world c
  end.

(** A world in which the build system is down: even the job lookup fails,
    without a response. *)
Definition network_failure : js_error :=
  {| message := "connect ECONNREFUSED"; response := None |}.

Definition jenkins_down_world (c : call) : outcome jsval :=
  match c with
  | CreateWebhook _ _ _ _ => Ok sample_hook
  | _ => Raise network_failure
  end.

(** A world in which the job does not exist yet. *)
Definition job_missing_world (c : call) : outcome jsval :=
  match c with
  | AxiosGet _ =>
      Raise {| message := "Request failed with status code 404";
               response := Some (404, VStr "Not Found") |}
  | _ => sample_world c
  end.

Definition lower_hex (c : ascii) : bool :=
  ((48 <=? code c) && (code c <=? 57)) || ((97 <=? code c) && (code c <=? 102)).

Fixpoint all_chars (p : ascii -> bool) (s : string) : bool :=
  match s with
  | EmptyString => true
  | String c rest => p c && all_chars p rest
  end.

Definition is_byte (b : Z) : Prop := 0 <= b < 256.

(** A push to another repository, never registered in the samples. *)
Definition other_payload : jsval :=
  VObj [("ref", VStr "refs/heads/main");
        ("after", VStr "9fceb02d0ae598e95dc970b74767f19372d61af8");
        ("repository", VObj [("full_name", VStr "acme/gadget")])].


(** The signatures of the sample payload under the sample secret, as a
    sender computes them with any HMAC-SHA256: over the bytes of
    [spaced_body], and over the compact text [sample_text]. *)
Definition spaced_body_signature : string :=
  "sha256=80b707c9927f25070140e9be63c1edf39bcf0c89080eb1e1b0c8ff3456514a37".

Definition compact_text_signature : string :=
  "sha256=f2e015018726c793762877f0184c8d5f3b86b1f2a2f91a17b235fb1b0f0293d1".

(** The branch as the specification derives it: the ref without its
    refs/heads/ prefix, and the ref itself when it has no such prefix. *)
Definition strip_ref_prefix (ref : string) : string :=
  match strip_prefix "refs/heads/" ref with
  | Some branch => branch
  | None => ref
  end.

(** A push of the tag named refs/heads/x, and its signature under the
    sample secret. *)
Definition nested_tag_payload : jsval :=
  VObj [("ref", VStr "refs/tags/refs/heads/x");
        ("after", VStr "9fceb02d0ae598e95dc970b74767f19372d61af8");
        ("repository", VObj [("full_name", VStr "acme/widget")])].

Definition nested_tag_signature : string :=
  "sha256=792138738404f6977e8e8a27485afdb749c5c824007bfafd620d1f8a5258fcf3".

(** * Properties *)

(** ** Test vectors *)

Example sha256_constants :
  nth 0 SHA256.K 0 = 0x428a2f98 /\ nth 63 SHA256.K 0 = 0xc67178f2 /\
  nth 0 SHA256.H0 0 = 0x6a09e667 /\ nth 7 SHA256.H0 0 = 0x5be0cd19.
Proof. vm_compute. repeat split; reflexivity. Qed.

Example sha256_abc :
  hex_of_bytes (SHA256.digest (bytes_of_string "abc"))
  = "ba7816bf8f01cfea414140de5dae2223b00361a396177a9cb410ff61f20015ad".
Proof. vm_compute. reflexivity. Qed.

Example hmac_rfc4231_case2 :
  hmac_sha256_hex "Jefe" "what do ya want for nothing?"
  = "5bdcc146bf60754e6a042426089575c75a003f089d2739839dec58b964ec3843".
Proof. vm_compute. reflexivity. Qed.

Example hmac_sample_signature :
  expected_signature sample_secret sample_text
  = "sha256=f2e015018726c793762877f0184c8d5f3b86b1f2a2f91a17b235fb1b0f0293d1".
Proof. vm_compute. reflexivity. Qed.

Example hmac_long_key :
  hmac_sha256_hex (string_of_list_ascii (repeat "k"%char 100))
    (string_of_list_ascii (repeat "m"%char 200))
  = "a6bca6f4482167eeffadc0449a346c21ffe8f96177eceecaeb182b610f6128c8".
Proof. vm_compute. reflexivity. Qed.

Example replace_branch : replace_first "refs/heads/" EmptyString "refs/heads/main" = "main".
Proof. reflexivity. Qed.

Example split_full_name : split "/" "acme/widget" = ["acme"; "widget"].
Proof. reflexivity. Qed.

Example to_string_array :
  js_to_string (VArr [VNum 1; VNull; VStr "a"; VArr [VBool true; VNum (-20)]]) = Ok "1,,a,true,-20".
Proof. vm_compute. reflexivity. Qed.

Example stringify_nested :
  JSON_stringify (VObj [("a", VArr [VNum 1; VUndef; VStr "x"]); ("u", VUndef); ("b", VObj [])])
  = Some (String "{" (quote "a" +:+ ":[1,null," +:+ quote "x" +:+ "]," +:+ quote "b" +:+ ":{}}")).
Proof. vm_compute. reflexivity. Qed.

Example parse_spaced :
  JSON_parse ("{ " +:+ quote "b" +:+ " : [1, -2, true ], " +:+ quote "7" +:+ ":null}")
  = Some (VObj [("7", VNull); ("b", VArr [VNum 1; VNum (-2); VBool true])]).
Proof. vm_compute. reflexivity. Qed.



(** ** Strings and bytes *)

Lemma append_empty (s : string) : s +:+ EmptyString = s.
Proof.
  induction s as [|c s IH]; [reflexivity|].
  change (String c (s +:+ EmptyString) = String c s). by rewrite IH.
Qed.

Lemma strip_prefix_append (p s : string) : strip_prefix p (p +:+ s) = Some s.
Proof.
  induction p as [|c p IH]; [by destruct s|].
  change (String c p +:+ s) with (String c (p +:+ s)). cbn.
  by rewrite Ascii.eqb_refl.
Qed.

Lemma replace_first_prefix (pat rep s rest : string) :
  strip_prefix pat s = Some rest -> replace_first pat rep s = rep +:+ rest.
Proof. intros H. destruct s; cbn; by rewrite H. Qed.

Lemma split_no_sep (s : string) : no_slash s = true -> split "/" s = [s].
Proof.
  induction s as [|c s IH]; cbn; [reflexivity|].
  intros [Hc Hs]%andb_prop. apply negb_true_iff in Hc. rewrite Hc.
  by rewrite IH.
Qed.

Lemma split_append (a b : string) :
  no_slash a = true -> split "/" (a +:+ String "/" b) = a :: split "/" b.
Proof.
  induction a as [|c a IH]; [reflexivity|].
  change (String c a +:+ String "/" b) with (String c (a +:+ String "/" b)). cbn.
  intros [Hc Ha]%andb_prop. apply negb_true_iff in Hc. rewrite Hc.
  by rewrite IH.
Qed.

Lemma split_nonempty sep s : exists first rest, split sep s = first :: rest.
Proof.
  induction s as [|c s (first & rest & IH)]; cbn; [by eauto|].
  destruct (Ascii.eqb c sep); [by eauto|]. rewrite IH. by eauto.
Qed.

Lemma split_full_name_parts (owner name : string) :
  no_slash owner = true -> no_slash name = true ->
  split "/" (full_name owner name) = [owner; name].
Proof.
  intros Ho Hn. unfold full_name.
  change ("/" +:+ name) with (String "/" name).
  by rewrite split_append, split_no_sep.
Qed.

Lemma hex_length (bs : list Z) :
  String.length (hex_of_bytes bs) = (2 * length bs)%nat.
Proof. induction bs as [|b bs IH]; cbn [hex_of_bytes String.length length]; lia. Qed.

#[local] Arguments hmac_sha256_hex : simpl never.
#[local] Arguments JSON_stringify : simpl never.
#[local] Arguments template : simpl never.
#[local] Arguments js_to_string : simpl never.
#[local] Arguments hex_of_bytes : simpl never.

(** ** Templates and property reads *)

Lemma template_job (user : string) :
  template [inl "odoo-deploy-"; inr (VStr user)] = Ok (job_name user).
Proof. unfold job_name, template, js_to_string, obind. by rewrite append_empty. Qed.

Lemma template_key (owner name : string) :
  template [inr (VStr owner); inl "/"; inr (VStr name)] = Ok (full_name owner name).
Proof. unfold full_name, template, js_to_string, obind. by rewrite append_empty. Qed.

Lemma template_log (name branch : string) :
  exists line, template [inr (VStr name); inl " on "; inr (VStr branch)] = Ok line.
Proof. eexists. reflexivity. Qed.

Lemma stringify_object props : exists text, JSON_stringify (VObj props) = Some text.
Proof. eexists. reflexivity. Qed.

Lemma get_prop_Ok v k x :
  get_prop v k = Ok x -> forall k', exists y, get_prop v k' = Ok y.
Proof. destruct v; cbn; intros H k'; try discriminate; eauto. Qed.

Lemma truthy_string (s : string) : s <> EmptyString -> truthy (VStr s) = true.
Proof. intros H. destruct s; [done|reflexivity]. Qed.

Lemma push_event_body req name ref :
  push_event req name ref -> exists props, body req = VObj props.
Proof.
  intros (_ & repo & Hrepo & Hname & _).
  destruct (body req); cbn in *; try discriminate; eauto;
    injection Hrepo as <-; discriminate.
Qed.

(** ** Running the handlers symbolically *)

Ltac unfold_monad :=
  unfold serve, try_catch, bind, eval, pure, throw, return_, respond,
    secrets_get, secrets_set, await in *.

(** Case analysis on an innermost scrutinee, in a hypothesis or the goal. *)
Ltac case_scrutinee H :=
  match type of H with
  | context [match ?x with _ => _ end] =>
      lazymatch x with
      | context [match _ with _ => _ end] => fail
      | _ => destruct x; cbn in H
      end
  end.

Ltac no_call H :=
  cbn in H; repeat case_scrutinee H; by apply elem_of_nil in H.

Ltac case_goal :=
  match goal with
  | |- context [match ?x with _ => _ end] =>
      lazymatch x with
      | context [match _ with _ => _ end] => fail
      | _ => destruct x eqn:?; cbn
      end
  end.

(** ** The receiver on a push event *)

Lemma webhook_push world jenkins secrets req name ref :
  push_event req name ref ->
  exists text sha,
    JSON_stringify (body req) = Some text /\
    get_prop (body req) "after" = Ok sha /\
    serve (webhook_github world jenkins req) secrets =
      match secrets !! name with
      | None | Some EmptyString =>
          (Returned, {| webhookSecrets := secrets; sent := [];
                        reply := text_reply 404 "Repository not registered" |})
      | Some secret =>
          if bool_decide (headers req !! "x-hub-signature-256"
                          = Some (expected_signature secret text))
          then
            let trigger :=
              push_trigger jenkins name (replace_first "refs/heads/" EmptyString ref) sha in
            (Normal tt,
             {| webhookSecrets := secrets; sent := [trigger];
                reply := match world trigger with
                         | Ok _ => text_reply 200 "Webhook processed"
                         | Raise _ => text_reply 500 "Internal error"
                         end |})
          else
            (Returned, {| webhookSecrets := secrets; sent := [];
                          reply := text_reply 401 "Invalid signature" |})
      end.
Proof.
  intros Hpush. destruct (push_event_body _ _ _ Hpush) as [props Hbody].
  destruct Hpush as (Hevent & repo & Hrepo & Hname & Href).
  destruct (stringify_object props) as [text Htext].
  exists text, (default VUndef (own_prop "after" props)).
  rewrite Hbody in *. split; [exact Htext|]. split; [reflexivity|].
  unfold webhook_github. unfold_monad. rewrite Hevent, Hbody.
  rewrite bool_decide_eq_true_2 by reflexivity. cbn [negb].
  rewrite Hrepo, Hname, Href. cbn.
  destruct (template_log name (replace_first "refs/heads/" EmptyString ref)) as [line ->].
  cbn.
  destruct (secrets !! name) as [[|c key]|]; [reflexivity| |reflexivity].
  rewrite Htext. cbn. fold (expected_signature (String c key) text).
  case_bool_decide; [|reflexivity]. cbn.
  unfold push_trigger, owner_part.
  destruct (split_nonempty "/" name) as (owner & rest & ->). cbn.
  rewrite template_job.
  destruct (world _); reflexivity.
Qed.

(** Whatever the request, a call goes out only for a push event. *)
Lemma webhook_sent_push world jenkins secrets req c :
  c ∈ sent (snd (serve (webhook_github world jenkins req) secrets)) ->
  exists name ref, push_event req name ref.
Proof.
  unfold webhook_github. unfold_monad. intros Hsent.
  case_bool_decide as Hevent; [|no_call Hsent].
  destruct (get_prop (body req) "repository") as [repo|] eqn:Hrepo; [|no_call Hsent].
  destruct (get_prop repo "full_name") as [full|] eqn:Hfull; [|no_call Hsent].
  destruct (get_prop (body req) "ref") as [r|] eqn:Href; [|no_call Hsent].
  destruct r as [| | | |ref| |]; try no_call Hsent.
  destruct full as [| | | |name| |]; try no_call Hsent.
  exists name, ref. split; [exact Hevent|]. exists repo. by rewrite <- Hfull.
Qed.

(** The receiver never writes the map. *)
Lemma webhook_secrets world jenkins secrets req :
  webhookSecrets (snd (serve (webhook_github world jenkins req) secrets)) = secrets.
Proof.
  unfold webhook_github. unfold_monad. cbn.
  repeat case_goal; reflexivity.
Qed.

(** ** The registrar and the map *)

Lemma add_repo_falsy world jenkins base random secrets req k v :
  k ∈ registration_fields ->
  get_prop (body req) k = Ok v ->
  truthy v = false ->
  serve (add_repo world jenkins base random req) secrets
  = (Returned, {| webhookSecrets := secrets; sent := []; reply := Some missing_fields |}).
Proof.
  intros Hk Hget Hfalsy.
  assert (Hcond :
    exists a b c d,
      get_prop (body req) "repo_owner" = Ok a /\ get_prop (body req) "repo_name" = Ok b /\
      get_prop (body req) "branch" = Ok c /\ get_prop (body req) "user_id" = Ok d /\
      negb (truthy a) || negb (truthy b) || negb (truthy c) || negb (truthy d) = true).
  { destruct (get_prop_Ok _ _ _ Hget "repo_owner") as [a Ha].
    destruct (get_prop_Ok _ _ _ Hget "repo_name") as [b Hb].
    destruct (get_prop_Ok _ _ _ Hget "branch") as [c Hc].
    destruct (get_prop_Ok _ _ _ Hget "user_id") as [d Hd].
    exists a, b, c, d. repeat (split; [assumption|]).
    unfold registration_fields in Hk.
    repeat (apply elem_of_cons in Hk as [->|Hk]); [| | | |by apply elem_of_nil in Hk];
      match goal with
      | H : get_prop _ ?f = Ok ?x |- _ =>
          rewrite Hget in H; injection H as <-; rewrite Hfalsy
      end; cbn; rewrite ?orb_true_r; reflexivity. }
  destruct Hcond as (a & b & c & d & Ha & Hb & Hc & Hd & Hcond).
  unfold add_repo. unfold_monad.
  assert (Hbody : coercible (body req) = Ok tt).
  { destruct (body req); try reflexivity; discriminate. }
  rewrite Hbody, Ha, Hb, Hc, Hd, Hcond. reflexivity.
Qed.

(** A registration leaves the map as it was or adds the fresh secret. *)
Lemma add_repo_secrets world jenkins base random secrets req :
  let final := snd (serve (add_repo world jenkins base random req) secrets) in
  webhookSecrets final = secrets \/
  exists key, webhookSecrets final = <[key := hex_of_bytes random]> secrets.
Proof.
  unfold add_repo, ensureJenkinsJobExists. unfold_monad. cbn.
  repeat case_goal; eauto.
Qed.

Lemma secrets_ok_insert secrets key random :
  secrets_ok secrets -> length random = 32%nat ->
  secrets_ok (<[key := hex_of_bytes random]> secrets).
Proof.
  intros Hok Hlen k s. rewrite lookup_insert. case_decide.
  - intros [= <-]. rewrite hex_length, Hlen. reflexivity.
  - apply Hok.
Qed.

(** The invariant of the map: every secret has 64 characters. *)
Lemma reachable_secrets_ok secrets : reachable secrets -> secrets_ok secrets.
Proof.
  induction 1 as [|world jenkins base random req secrets _ IH Hlen
                  |world jenkins req secrets _ IH].
  - intros k s. by rewrite lookup_empty.
  - destruct (add_repo_secrets world jenkins base random secrets req) as [->|[key ->]];
      [exact IH|by apply secrets_ok_insert].
  - by rewrite webhook_secrets.
Qed.

Lemma secrets_ok_nonempty secrets key secret :
  secrets_ok secrets -> secrets !! key = Some secret ->
  exists c rest, secret = String c rest.
Proof.
  intros Hok Hget. specialize (Hok _ _ Hget). destruct secret; [discriminate|eauto].
Qed.

(** ** Sample data *)

Lemma sample_secrets_ok : secrets_ok sample_secrets.
Proof.
  intros key secret. unfold sample_secrets. rewrite lookup_singleton.
  case_decide; [|done]. intros [= <-]. vm_compute. reflexivity.
Qed.

Lemma sample_push_event : push_event sample_push "acme/widget" "refs/heads/main".
Proof.
  split; [vm_compute; reflexivity|].
  exists (VObj [("full_name", VStr "acme/widget")]). repeat split; reflexivity.
Qed.

(** ** The webhook receiver *)

(** The gate on the text the handler hashes.  For a push event whose
    repository full name has a stored secret, the receiver issues the
    build trigger exactly when the signature header equals ["sha256="]
    followed by the hex HMAC-SHA256, under the stored secret, of
    [JSON.stringify(req.body)]; on any other signature it answers 401,
    issues no call and leaves the map alone.  This text is not the body as
    received: see [received_body_gate_fails]. *)
Theorem signature_gate world jenkins secrets req name ref secret :
  secrets_ok secrets ->
  push_event req name ref ->
  secrets !! name = Some secret ->
  exists text,
    JSON_stringify (body req) = Some text /\
    let final := snd (serve (webhook_github world jenkins req) secrets) in
    let signature := headers req !! "x-hub-signature-256" in
    (signature = Some (expected_signature secret text) <->
     exists branch sha, sent final = [push_trigger jenkins name branch sha]) /\
    (signature <> Some (expected_signature secret text) ->
     reply final = text_reply 401 "Invalid signature" /\
     sent final = [] /\
     webhookSecrets final = secrets).
Proof.
  intros Hok Hpush Hsecret.
  destruct (webhook_push world jenkins secrets req name ref Hpush)
    as (text & sha & Htext & _ & Hrun).
  destruct (secrets_ok_nonempty _ _ _ Hok Hsecret) as (c & rest & ->).
  exists text. split; [exact Htext|]. cbn zeta. rewrite Hrun, Hsecret.
  case_bool_decide as Hsig; cbn.
  - split; [|done]. split; [eauto|done].
  - split; [|done]. split; [done|]. by intros (? & ? & ?).
Qed.

Lemma signature_gate_witness :
  secrets_ok sample_secrets /\
  push_event sample_push "acme/widget" "refs/heads/main" /\
  sample_secrets !! "acme/widget" = Some sample_secret /\
  exists text,
    JSON_stringify (body sample_push) = Some text /\
    let final := snd (serve (webhook_github sample_world sample_jenkins sample_push)
                        sample_secrets) in
    let signature := headers sample_push !! "x-hub-signature-256" in
    (signature = Some (expected_signature sample_secret text) <->
     exists branch sha, sent final = [push_trigger sample_jenkins "acme/widget" branch sha]) /\
    (signature <> Some (expected_signature sample_secret text) ->
     reply final = text_reply 401 "Invalid signature" /\
     sent final = [] /\
     webhookSecrets final = sample_secrets).
Proof.
  split; [exact sample_secrets_ok|].
  split; [exact sample_push_event|].
  split; [vm_compute; reflexivity|].
  apply (signature_gate sample_world sample_jenkins sample_secrets sample_push
           "acme/widget" "refs/heads/main" sample_secret).
  - exact sample_secrets_ok.
  - exact sample_push_event.
  - vm_compute. reflexivity.
Defined.

(** C3: in every run of the receiver, whatever the request, the map and the
    remote answers, a call goes out only if the request is a push event
    whose repository full name has a secret in the map and whose signature
    header equals the recomputed signature. *)
Theorem dispatch_only_verified world jenkins secrets req c :
  c ∈ sent (snd (serve (webhook_github world jenkins req) secrets)) ->
  exists name ref secret text,
    push_event req name ref /\
    secrets !! name = Some secret /\
    JSON_stringify (body req) = Some text /\
    headers req !! "x-hub-signature-256" = Some (expected_signature secret text).
Proof.
  intros Hsent.
  destruct (webhook_sent_push _ _ _ _ _ Hsent) as (name & ref & Hpush).
  destruct (webhook_push world jenkins secrets req name ref Hpush)
    as (text & sha & Htext & _ & Hrun).
  rewrite Hrun in Hsent.
  destruct (secrets !! name) as [[|ch rest]|] eqn:Hsecret;
    [by apply elem_of_nil in Hsent| |by apply elem_of_nil in Hsent].
  case_bool_decide as Hsig; [|by apply elem_of_nil in Hsent].
  by exists name, ref, (String ch rest), text.
Qed.

Lemma dispatch_only_verified_witness :
  push_trigger sample_jenkins "acme/widget" "main"
    (VStr "9fceb02d0ae598e95dc970b74767f19372d61af8")
  ∈ sent (snd (serve (webhook_github sample_world sample_jenkins sample_push)
                 sample_secrets)) /\
  exists name ref secret text,
    push_event sample_push name ref /\
    sample_secrets !! name = Some secret /\
    JSON_stringify (body sample_push) = Some text /\
    headers sample_push !! "x-hub-signature-256" = Some (expected_signature secret text).
Proof.
  assert (Hsent :
    push_trigger sample_jenkins "acme/widget" "main"
      (VStr "9fceb02d0ae598e95dc970b74767f19372d61af8")
    ∈ sent (snd (serve (webhook_github sample_world sample_jenkins sample_push)
                   sample_secrets))).
  { vm_compute. apply list_elem_of_here. }
  split; [exact Hsent|].
  exact (dispatch_only_verified sample_world sample_jenkins sample_secrets sample_push _ Hsent).
Defined.

(** C4: a push event whose repository full name has no entry in the map is
    answered 404, whatever the signature header holds, be it the right one
    for some secret or not; no call goes out and the map is unchanged. *)
Theorem unregistered_push_not_found world jenkins secrets req name ref :
  push_event req name ref ->
  secrets !! name = None ->
  serve (webhook_github world jenkins req) secrets
  = (Returned,
     {| webhookSecrets := secrets; sent := [];
        reply := text_reply 404 "Repository not registered" |}).
Proof.
  intros Hpush Hnone.
  destruct (webhook_push world jenkins secrets req name ref Hpush)
    as (text & sha & _ & _ & Hrun).
  by rewrite Hrun, Hnone.
Qed.

Lemma unregistered_push_not_found_witness :
  push_event sample_push "acme/widget" "refs/heads/main" /\
  (∅ : gmap string string) !! "acme/widget" = None /\
  serve (webhook_github sample_world sample_jenkins sample_push) ∅
  = (Returned,
     {| webhookSecrets := ∅; sent := [];
        reply := text_reply 404 "Repository not registered" |}).
Proof.
  split; [exact sample_push_event|]. split; [reflexivity|].
  apply (unregistered_push_not_found sample_world sample_jenkins ∅ sample_push
           "acme/widget" "refs/heads/main").
  - exact sample_push_event.
  - reflexivity.
Defined.

(** The build of a branch push.  For an accepted push to the repository
    owner/name, neither part containing a slash, on a ref that starts
    with refs/heads/, the receiver issues one build trigger: the job is
    named after the owner, taken as user identifier, and the parameters are
    REPO_OWNER = owner, REPO_NAME = name, BRANCH = the ref without that
    prefix, USER_ID = owner and COMMIT_SHA = the payload's [after].  On
    other refs the branch is not the stripped ref: see
    [replaced_ref_not_stripped]. *)
Theorem accepted_push_build_parameters
    world jenkins secrets req owner name branch secret text :
  secrets_ok secrets ->
  push_event req (full_name owner name) ("refs/heads/" +:+ branch) ->
  no_slash owner = true ->
  no_slash name = true ->
  secrets !! full_name owner name = Some secret ->
  JSON_stringify (body req) = Some text ->
  headers req !! "x-hub-signature-256" = Some (expected_signature secret text) ->
  exists sha,
    get_prop (body req) "after" = Ok sha /\
    sent (snd (serve (webhook_github world jenkins req) secrets))
    = [AxiosPost (build_url jenkins (job_name owner))
         [("REPO_OWNER", VStr owner); ("REPO_NAME", VStr name);
          ("BRANCH", VStr branch); ("USER_ID", VStr owner); ("COMMIT_SHA", sha)]].
Proof.
  intros Hok Hpush Howner Hname Hsecret Htext Hsig.
  destruct (webhook_push world jenkins secrets req _ _ Hpush)
    as (text' & sha & Htext' & Hsha & Hrun).
  rewrite Htext in Htext'. injection Htext' as <-.
  destruct (secrets_ok_nonempty _ _ _ Hok Hsecret) as (c & rest & ->).
  exists sha. split; [exact Hsha|].
  rewrite Hrun, Hsecret, bool_decide_eq_true_2 by exact Hsig. cbn.
  unfold push_trigger, owner_part.
  rewrite (replace_first_prefix _ _ _ branch) by apply strip_prefix_append.
  by rewrite split_full_name_parts.
Qed.

Lemma accepted_push_build_parameters_witness :
  exists sha,
    get_prop (body sample_push) "after" = Ok sha /\
    sent (snd (serve (webhook_github sample_world sample_jenkins sample_push)
                 sample_secrets))
    = [AxiosPost (build_url sample_jenkins (job_name "acme"))
         [("REPO_OWNER", VStr "acme"); ("REPO_NAME", VStr "widget");
          ("BRANCH", VStr "main"); ("USER_ID", VStr "acme"); ("COMMIT_SHA", sha)]].
Proof.
  apply (accepted_push_build_parameters sample_world sample_jenkins sample_secrets
           sample_push "acme" "widget" "main" sample_secret sample_text).
  - exact sample_secrets_ok.
  - exact sample_push_event.
  - reflexivity.
  - reflexivity.
  - vm_compute. reflexivity.
  - reflexivity.
  - vm_compute. reflexivity.
Defined.

(** C8: a webhook request whose event header is not push (or is missing)
    is answered 200 at once, whatever its body, its signature header and
    the map hold; no call goes out and the map is unchanged. *)
Theorem non_push_event_ignored world jenkins secrets req :
  headers req !! "x-github-event" <> Some "push" ->
  serve (webhook_github world jenkins req) secrets
  = (Returned,
     {| webhookSecrets := secrets; sent := []; reply := text_reply 200 "Event ignored" |}).
Proof.
  intros Hevent. unfold webhook_github. unfold_monad.
  rewrite bool_decide_eq_false_2 by exact Hevent. reflexivity.
Qed.

Lemma non_push_event_ignored_witness :
  headers ping_request !! "x-github-event" <> Some "push" /\
  serve (webhook_github sample_world sample_jenkins ping_request) sample_secrets
  = (Returned,
     {| webhookSecrets := sample_secrets; sent := [];
        reply := text_reply 200 "Event ignored" |}).
Proof.
  assert (Hevent : headers ping_request !! "x-github-event" <> Some "push")
    by (vm_compute; discriminate).
  split; [exact Hevent|].
  exact (non_push_event_ignored sample_world sample_jenkins sample_secrets ping_request Hevent).
Defined.

(** ** The registrar *)

Lemma body_coercible req k x :
  get_prop (body req) k = Ok x -> coercible (body req) = Ok tt.
Proof. destruct (body req); try reflexivity; discriminate. Qed.

Lemma error_reply_not_success e data :
  error_reply e
  <> {| status := 200;
        content := Json (VObj [("success", VBool true);
                               ("message", VStr "Repository added successfully");
                               ("data", data)]) |}.
Proof. unfold error_reply. destruct (response e) as [[code details]|]; discriminate. Qed.

(** Unfold the handler on a valid registration up to the [try] block. *)
Ltac run_registration Hreg :=
  let Ho := fresh "Howner" in
  let Hn := fresh "Hname" in
  let Hb := fresh "Hbranch" in
  let Hu := fresh "Huser" in
  destruct Hreg as (Ho & Hn & Hb & Hu & ? & ? & ? & ?);
  unfold add_repo, ensureJenkinsJobExists; unfold_monad;
  rewrite (body_coercible _ _ _ Ho), Ho, Hn, Hb, Hu;
  rewrite !truthy_string by assumption;
  cbn; rewrite !template_key; cbn.

Lemma registration_stores world jenkins base random secrets req owner name branch user :
  registration req owner name branch user ->
  succeeded (snd (serve (add_repo world jenkins base random req) secrets)) ->
  webhookSecrets (snd (serve (add_repo world jenkins base random req) secrets))
  = <[full_name owner name := hex_of_bytes random]> secrets.
Proof.
  intros Hreg. run_registration Hreg.
  rewrite template_job. cbn.
  repeat case_goal; intros [data Hreply]; cbn in Hreply;
    first [discriminate Hreply | reflexivity].
Qed.

(** C5: for valid registration inputs a successful call stores the fresh
    secret under the key owner/name, and a second successful registration
    of the same repository puts its own secret in place of the first:
    afterwards the receiver accepts a push exactly on the signature under
    the new secret, and rejects with 401 a signature made under the old
    secret (whenever the two signatures differ). *)
Theorem registration_overwrites_secret
    world1 world2 world3 jenkins base random1 random2 secrets
    req1 req2 owner name branch1 user1 branch2 user2 push ref text :
  length random2 = 32%nat ->
  registration req1 owner name branch1 user1 ->
  registration req2 owner name branch2 user2 ->
  let first := snd (serve (add_repo world1 jenkins base random1 req1) secrets) in
  let second :=
    snd (serve (add_repo world2 jenkins base random2 req2) (webhookSecrets first)) in
  succeeded first ->
  succeeded second ->
  push_event push (full_name owner name) ref ->
  JSON_stringify (body push) = Some text ->
  let old := hex_of_bytes random1 in
  let new := hex_of_bytes random2 in
  let final := snd (serve (webhook_github world3 jenkins push) (webhookSecrets second)) in
  let signature := headers push !! "x-hub-signature-256" in
  webhookSecrets first = <[full_name owner name := old]> secrets /\
  webhookSecrets second = <[full_name owner name := new]> secrets /\
  (signature = Some (expected_signature new text) <->
   exists branch sha, sent final = [push_trigger jenkins (full_name owner name) branch sha]) /\
  (signature = Some (expected_signature old text) ->
   expected_signature old text <> expected_signature new text ->
   reply final = text_reply 401 "Invalid signature" /\ sent final = []).
Proof.
  intros Hlen Hreg1 Hreg2 first second Hfirst Hsecond Hpush Htext old new final signature.
  pose proof (registration_stores _ _ _ _ _ _ _ _ _ _ Hreg1 Hfirst) as Hstore1.
  pose proof (registration_stores _ _ _ _ _ _ _ _ _ _ Hreg2 Hsecond) as Hstore2.
  fold first in Hstore1, Hstore2. fold second in Hstore2.
  rewrite Hstore1, insert_insert_eq in Hstore2. fold old in Hstore1. fold new in Hstore2.
  split; [exact Hstore1|]. split; [exact Hstore2|].
  destruct (webhook_push world3 jenkins (webhookSecrets second) push _ _ Hpush)
    as (text' & sha & Htext' & _ & Hrun).
  rewrite Htext in Htext'. injection Htext' as <-.
  assert (Hnew : exists c rest, new = String c rest).
  { assert (Hl : String.length new = 64%nat)
      by (unfold new; rewrite hex_length, Hlen; reflexivity).
    destruct new; [discriminate|eauto]. }
  destruct Hnew as (c & rest & Hnew).
  subst final. rewrite Hrun, Hstore2, lookup_insert_eq, Hnew. rewrite <- Hnew. fold signature.
  case_bool_decide as Hsig; cbn.
  - split; [split; [eauto|done]|]. intros Hold Hdiff. congruence.
  - split; [split; [done|by intros (? & ? & ?)]|]. done.
Qed.

Lemma sample_registration_valid : registration sample_registration "acme" "widget" "main" "u123".
Proof. repeat split; (reflexivity || discriminate). Qed.

Lemma sample_signatures_differ :
  expected_signature (hex_of_bytes sample_random) sample_text
  <> expected_signature (hex_of_bytes second_random) sample_text.
Proof. vm_compute. discriminate. Qed.

Lemma registration_overwrites_secret_witness :
  succeeded first_run /\ succeeded second_run /\
  webhookSecrets first_run = <[full_name "acme" "widget" := hex_of_bytes sample_random]> ∅ /\
  webhookSecrets second_run = <[full_name "acme" "widget" := hex_of_bytes second_random]> ∅ /\
  reply stale_push_run = text_reply 401 "Invalid signature" /\
  sent stale_push_run = [].
Proof.
  assert (Hfirst : succeeded first_run) by (vm_compute; eexists; reflexivity).
  assert (Hsecond : succeeded second_run) by (vm_compute; eexists; reflexivity).
  split; [exact Hfirst|]. split; [exact Hsecond|].
  unfold stale_push_run, second_run, first_run in *.
  destruct (registration_overwrites_secret sample_world sample_world sample_world
              sample_jenkins sample_base sample_random second_random ∅
              sample_registration sample_registration
              "acme" "widget" "main" "u123" "main" "u123"
              sample_push "refs/heads/main" sample_text
              eq_refl sample_registration_valid sample_registration_valid
              Hfirst Hsecond sample_push_event eq_refl)
    as (Hstore1 & Hstore2 & _ & Hstale).
  split; [exact Hstore1|]. split; [exact Hstore2|].
  apply Hstale; [reflexivity|exact sample_signatures_differ].
Defined.

(** C7: when one of repo_owner, repo_name, branch, user_id is absent from
    the body object, the registrar answers 400 with the missing-fields
    error; no call goes out and the map is unchanged. *)
Theorem missing_field_rejected world jenkins base random secrets req props k :
  body req = VObj props ->
  k ∈ registration_fields ->
  own_prop k props = None ->
  serve (add_repo world jenkins base random req) secrets
  = (Returned, {| webhookSecrets := secrets; sent := []; reply := Some missing_fields |}).
Proof.
  intros Hbody Hk Habsent.
  apply (add_repo_falsy _ _ _ _ _ _ k VUndef); [exact Hk| |reflexivity].
  rewrite Hbody. cbn. by rewrite Habsent.
Qed.

Lemma missing_field_rejected_witness :
  "branch" ∈ registration_fields /\
  own_prop "branch" fields_without_branch = None /\
  serve (add_repo sample_world sample_jenkins sample_base sample_random
           {| headers := ∅; body := VObj fields_without_branch |}) sample_secrets
  = (Returned,
     {| webhookSecrets := sample_secrets; sent := []; reply := Some missing_fields |}).
Proof.
  assert (Hk : "branch" ∈ registration_fields) by (apply list_elem_of_In; cbn; tauto).
  split; [exact Hk|]. split; [reflexivity|].
  exact (missing_field_rejected sample_world sample_jenkins sample_base sample_random
           sample_secrets {| headers := ∅; body := VObj fields_without_branch |}
           fields_without_branch "branch" eq_refl Hk eq_refl).
Defined.

(** C10: when one of repo_owner, repo_name, branch, user_id is present but
    is the empty string, the registrar answers with the same 400
    missing-fields error as for an absent field. *)
Theorem empty_field_rejected world jenkins base random secrets req props k :
  body req = VObj props ->
  k ∈ registration_fields ->
  own_prop k props = Some (VStr EmptyString) ->
  serve (add_repo world jenkins base random req) secrets
  = (Returned, {| webhookSecrets := secrets; sent := []; reply := Some missing_fields |}).
Proof.
  intros Hbody Hk Hempty.
  apply (add_repo_falsy _ _ _ _ _ _ k (VStr EmptyString)); [exact Hk| |reflexivity].
  rewrite Hbody. cbn. by rewrite Hempty.
Qed.

Lemma empty_field_rejected_witness :
  "repo_name" ∈ registration_fields /\
  own_prop "repo_name" fields_with_empty_name = Some (VStr EmptyString) /\
  serve (add_repo sample_world sample_jenkins sample_base sample_random
           {| headers := ∅; body := VObj fields_with_empty_name |}) sample_secrets
  = (Returned,
     {| webhookSecrets := sample_secrets; sent := []; reply := Some missing_fields |}).
Proof.
  assert (Hk : "repo_name" ∈ registration_fields) by (apply list_elem_of_In; cbn; tauto).
  split; [exact Hk|]. split; [reflexivity|].
  exact (empty_field_rejected sample_world sample_jenkins sample_base sample_random
           sample_secrets {| headers := ∅; body := VObj fields_with_empty_name |}
           fields_with_empty_name "repo_name" eq_refl Hk eq_refl).
Defined.

(** C9: when the webhook is created and the job lookup passes but the
    initial build trigger fails, the call answers with the error of the
    trigger, the secret stays stored under owner/name, and the three calls
    issued are the hook creation, the job lookup and the trigger: nothing
    is undone. *)
Theorem failed_first_build_keeps_secret
    world jenkins base random secrets req owner name branch user hook e :
  registration req owner name branch user ->
  world (hook_call base owner name (hex_of_bytes random)) = Ok hook ->
  created hook ->
  job_checked (world (job_call jenkins user)) ->
  world (first_build_call jenkins owner name branch user) = Raise e ->
  let final := snd (serve (add_repo world jenkins base random req) secrets) in
  reply final = Some (error_reply e) /\
  ~ succeeded final /\
  webhookSecrets final = <[full_name owner name := hex_of_bytes random]> secrets /\
  sent final = [hook_call base owner name (hex_of_bytes random);
                job_call jenkins user;
                first_build_call jenkins owner name branch user].
Proof.
  intros Hreg Hhook (data & id & text & Hdata & Hid & Htext) Hjob Hbuild final.
  assert (Hfinal :
    reply final = Some (error_reply e) /\
    webhookSecrets final = <[full_name owner name := hex_of_bytes random]> secrets /\
    sent final = [hook_call base owner name (hex_of_bytes random);
                  job_call jenkins user;
                  first_build_call jenkins owner name branch user]).
  { subst final. unfold hook_call, job_call, first_build_call, error_reply in *.
    run_registration Hreg.
    rewrite Hhook. cbn. rewrite Hdata. cbn. rewrite Hid. cbn. rewrite Htext. cbn.
    rewrite template_job. cbn.
    destruct (world (AxiosGet _)) as [found|failure]; cbn in Hjob |- *.
    - rewrite Hbuild. cbn. destruct (response e) as [[code details]|]; done.
    - destruct Hjob as [details ->]. cbn.
      rewrite Hbuild. cbn. destruct (response e) as [[code details']|]; done. }
  destruct Hfinal as (Hreply & Hsecrets & Hsent).
  repeat split; try assumption.
  intros [payload Hsuccess]. rewrite Hreply in Hsuccess.
  injection Hsuccess as Hsuccess. by apply error_reply_not_success in Hsuccess.
Qed.

Lemma failed_first_build_keeps_secret_witness :
  reply failed_run = Some (error_reply build_failure) /\
  ~ succeeded failed_run /\
  webhookSecrets failed_run = <[full_name "acme" "widget" := hex_of_bytes sample_random]> ∅ /\
  sent failed_run = [hook_call sample_base "acme" "widget" (hex_of_bytes sample_random);
                     job_call sample_jenkins "u123";
                     first_build_call sample_jenkins "acme" "widget" "main" "u123"].
Proof.
  unfold failed_run.
  apply (failed_first_build_keeps_secret failing_build_world sample_jenkins
           sample_base sample_random ∅ sample_registration
           "acme" "widget" "main" "u123" sample_hook build_failure).
  - exact sample_registration_valid.
  - reflexivity.
  - exists (VObj [("id", VNum 12345678);
                  ("config", VObj [("url", VStr "https://relay.example/webhook/github")])]),
      (VNum 12345678), "12345678".
    repeat split; vm_compute; reflexivity.
  - exact I.
  - reflexivity.
Defined.

(** ** The body that is hashed *)

Lemma webhook_rejects world jenkins secrets req name ref secret text :
  secrets_ok secrets ->
  push_event req name ref ->
  secrets !! name = Some secret ->
  JSON_stringify (body req) = Some text ->
  headers req !! "x-hub-signature-256" <> Some (expected_signature secret text) ->
  serve (webhook_github world jenkins req) secrets
  = (Returned,
     {| webhookSecrets := secrets; sent := []; reply := text_reply 401 "Invalid signature" |}).
Proof.
  intros Hok Hpush Hsecret Htext Hsig.
  destruct (webhook_push world jenkins secrets req name ref Hpush)
    as (text' & sha & Htext' & _ & Hrun).
  rewrite Htext in Htext'. injection Htext' as <-.
  destruct (secrets_ok_nonempty _ _ _ Hok Hsecret) as (c & rest & ->).
  by rewrite Hrun, Hsecret, bool_decide_eq_false_2.
Qed.

(** C2, on the code: the hook that the registrar creates makes the sender
    sign the bytes it sends.  [spaced_body] is a body with a blank after
    every colon and comma; [express.json()] parses it to [sample_payload],
    whose [JSON.stringify] text has no blanks.  The signature of the bytes
    as received is therefore refused with 401: the receiver hashes the
    re-serialization of the parsed body. *)
Theorem raw_body_signature_rejected world jenkins :
  express_json spaced_body = Some sample_payload /\
  JSON_stringify sample_payload <> Some spaced_body /\
  serve (webhook_github world jenkins
           (push_request (expected_signature sample_secret spaced_body) sample_payload))
    sample_secrets
  = (Returned,
     {| webhookSecrets := sample_secrets; sent := [];
        reply := text_reply 401 "Invalid signature" |}).
Proof.
  split; [vm_compute; reflexivity|]. split; [vm_compute; discriminate|].
  apply (webhook_rejects world jenkins sample_secrets _ "acme/widget" "refs/heads/main"
           sample_secret sample_text).
  - exact sample_secrets_ok.
  - split; [vm_compute; reflexivity|].
    exists (VObj [("full_name", VStr "acme/widget")]). repeat split; reflexivity.
  - vm_compute. reflexivity.
  - reflexivity.
  - vm_compute. discriminate.
Qed.

(** The same on a compact body that writes a letter as an escape: the
    parsed body prints the letter itself, and the signature of the bytes
    as received is refused. *)
Example escaped_body_signature_rejected world jenkins :
  express_json escaped_body = Some accented_payload /\
  JSON_stringify accented_payload <> Some escaped_body /\
  serve (webhook_github world jenkins
           (push_request (expected_signature sample_secret escaped_body) accented_payload))
    sample_secrets
  = (Returned,
     {| webhookSecrets := sample_secrets; sent := [];
        reply := text_reply 401 "Invalid signature" |}).
Proof.
  split; [vm_compute; reflexivity|]. split; [vm_compute; discriminate|].
  apply (webhook_rejects world jenkins sample_secrets _ "acme/widget" "refs/heads/main"
           sample_secret (default EmptyString (JSON_stringify accented_payload))).
  - exact sample_secrets_ok.
  - split; [vm_compute; reflexivity|].
    exists (VObj [("full_name", VStr "acme/widget")]). repeat split; reflexivity.
  - vm_compute. reflexivity.
  - reflexivity.
  - vm_compute. discriminate.
Qed.

(** * Further properties of the handlers *)

#[local] Set Warnings "-clear-no-such-hyp".


Lemma replace_first_absent (pat rep s : string) :
  contains pat s = false -> replace_first pat rep s = s.
Proof.
  induction s as [|c s IH]; cbn.
  - destruct (strip_prefix pat EmptyString); [discriminate|reflexivity].
  - destruct (strip_prefix pat (String c s)); [discriminate|].
    intros H. by rewrite IH.
Qed.

(** X2: a push whose payload has no repository (or a null one), or whose
    ref is missing or not a string, is answered 500 Internal error: the
    handler throws while it reads the payload, before any lookup, and no
    call goes out. *)
Theorem malformed_push_internal_error world jenkins secrets req props :
  headers req !! "x-github-event" = Some "push" ->
  body req = VObj props ->
  own_prop "repository" props = None \/
  own_prop "repository" props = Some VNull \/
  (forall ref, own_prop "ref" props <> Some (VStr ref)) ->
  serve (webhook_github world jenkins req) secrets
  = (Normal tt,
     {| webhookSecrets := secrets; sent := []; reply := text_reply 500 "Internal error" |}).
Proof.
  intros Hevent Hbody Hbad. unfold webhook_github. unfold_monad.
  rewrite Hevent, Hbody. rewrite bool_decide_eq_true_2 by reflexivity. cbn.
  destruct Hbad as [->|[->|Href]]; [reflexivity|reflexivity|].
  destruct (own_prop "repository" props) as [repo|]; [|reflexivity].
  destruct repo; cbn; try reflexivity;
    (destruct (own_prop "ref" props) as [[| | | |ref| |]|] eqn:Hr;
       cbn; try reflexivity; by destruct (Href ref)).
Qed.

Lemma malformed_push_internal_error_witness :
  serve (webhook_github sample_world sample_jenkins
           (push_request "sha256=00" (VObj fields_without_ref))) sample_secrets
  = (Normal tt,
     {| webhookSecrets := sample_secrets; sent := [];
        reply := text_reply 500 "Internal error" |}).
Proof.
  apply (malformed_push_internal_error sample_world sample_jenkins sample_secrets
           (push_request "sha256=00" (VObj fields_without_ref)) fields_without_ref).
  - vm_compute. reflexivity.
  - reflexivity.
  - right. right. intros ref. vm_compute. discriminate.
Defined.

(** X3: on an accepted push the receiver issues the build trigger once;
    it answers 200 Webhook processed exactly when the build system accepts
    the trigger and 500 Internal error exactly when it refuses it. *)
Theorem accepted_push_reply world jenkins secrets req name ref secret text :
  secrets_ok secrets ->
  push_event req name ref ->
  secrets !! name = Some secret ->
  JSON_stringify (body req) = Some text ->
  headers req !! "x-hub-signature-256" = Some (expected_signature secret text) ->
  exists trigger,
    let final := snd (serve (webhook_github world jenkins req) secrets) in
    is_build_trigger trigger = true /\
    sent final = [trigger] /\
    (reply final = text_reply 200 "Webhook processed" <-> exists v, world trigger = Ok v) /\
    (reply final = text_reply 500 "Internal error" <-> exists e, world trigger = Raise e).
Proof.
  intros Hok Hpush Hsecret Htext Hsig.
  destruct (webhook_push world jenkins secrets req name ref Hpush)
    as (text' & sha & Htext' & _ & Hrun).
  rewrite Htext in Htext'. injection Htext' as <-.
  destruct (secrets_ok_nonempty _ _ _ Hok Hsecret) as (c & rest & ->).
  rewrite Hsecret, bool_decide_eq_true_2 in Hrun by exact Hsig.
  exists (push_trigger jenkins name (replace_first "refs/heads/" EmptyString ref) sha).
  cbn zeta. rewrite Hrun. cbn [snd sent reply].
  split; [reflexivity|]. split; [reflexivity|].
  destruct (world _) as [v|e]; split; split; try discriminate; eauto;
    intros [? [=]].
Qed.

Lemma accepted_push_reply_witness :
  exists trigger,
    let final := snd (serve (webhook_github failing_build_world sample_jenkins sample_push)
                        sample_secrets) in
    is_build_trigger trigger = true /\
    sent final = [trigger] /\
    (reply final = text_reply 200 "Webhook processed"
     <-> exists v, failing_build_world trigger = Ok v) /\
    (reply final = text_reply 500 "Internal error"
     <-> exists e, failing_build_world trigger = Raise e).
Proof.
  apply (accepted_push_reply failing_build_world sample_jenkins sample_secrets sample_push
           "acme/widget" "refs/heads/main" sample_secret sample_text).
  - exact sample_secrets_ok.
  - exact sample_push_event.
  - vm_compute. reflexivity.
  - reflexivity.
  - vm_compute. reflexivity.
Defined.

(** X4: a ref in which refs/heads/ does not occur, a tag ref for one, is
    passed on whole: the push is accepted like any other and BRANCH is the
    ref itself. *)
Theorem push_without_branch_prefix world jenkins secrets req name ref secret text :
  secrets_ok secrets ->
  push_event req name ref ->
  contains "refs/heads/" ref = false ->
  secrets !! name = Some secret ->
  JSON_stringify (body req) = Some text ->
  headers req !! "x-hub-signature-256" = Some (expected_signature secret text) ->
  exists sha,
    get_prop (body req) "after" = Ok sha /\
    sent (snd (serve (webhook_github world jenkins req) secrets))
    = [push_trigger jenkins name ref sha].
Proof.
  intros Hok Hpush Habsent Hsecret Htext Hsig.
  destruct (webhook_push world jenkins secrets req name ref Hpush)
    as (text' & sha & Htext' & Hsha & Hrun).
  rewrite Htext in Htext'. injection Htext' as <-.
  destruct (secrets_ok_nonempty _ _ _ Hok Hsecret) as (c & rest & ->).
  exists sha. split; [exact Hsha|].
  rewrite Hrun, Hsecret, bool_decide_eq_true_2 by exact Hsig. cbn.
  by rewrite replace_first_absent.
Qed.

Lemma push_without_branch_prefix_witness :
  exists sha,
    get_prop (body tag_push) "after" = Ok sha /\
    sent (snd (serve (webhook_github sample_world sample_jenkins tag_push) sample_secrets))
    = [push_trigger sample_jenkins "acme/widget" "refs/tags/v1.0" sha].
Proof.
  apply (push_without_branch_prefix sample_world sample_jenkins sample_secrets tag_push
           "acme/widget" "refs/tags/v1.0" sample_secret
           (default EmptyString (JSON_stringify tag_payload))).
  - exact sample_secrets_ok.
  - split; [vm_compute; reflexivity|].
    exists (VObj [("full_name", VStr "acme/widget")]). repeat split; reflexivity.
  - reflexivity.
  - vm_compute. reflexivity.
  - reflexivity.
  - vm_compute. reflexivity.
Defined.

(** X5: [ensureJenkinsJobExists] issues one GET and touches neither the
    map nor the response; it returns normally exactly when the GET
    succeeds or is answered 404, and it throws exactly the error of the
    GET otherwise. *)
Theorem job_lookup_outcomes world jenkins job st :
  let lookup := AxiosGet (jenkins +:+ "/job/" +:+ job +:+ "/api/json") in
  let run := ensureJenkinsJobExists world jenkins job st in
  snd run = {| webhookSecrets := webhookSecrets st; sent := sent st ++ [lookup];
               reply := reply st |} /\
  (fst run = Normal tt <-> job_checked (world lookup)) /\
  (forall e, fst run = Throw e <-> world lookup = Raise e /\ ~ job_checked (world lookup)).
Proof.
  unfold ensureJenkinsJobExists, job_checked. unfold_monad. cbn.
  destruct (world _) as [v|e]; cbn; [naive_solver|].
  destruct (response e) as [[code details]|]; cbn; [|naive_solver].
  destruct (code =? 404) eqn:Hcode; cbn.
  - apply Z.eqb_eq in Hcode as ->. naive_solver.
  - apply Z.eqb_neq in Hcode. naive_solver.
Qed.

(** X6: when GitHub refuses the hook, a valid registration stops there:
    the only call is the hook creation, nothing is stored, and the answer
    carries the status and body of the refusal (500 if there is none). *)
Theorem hook_creation_failure
    world jenkins base random secrets req owner name branch user e :
  registration req owner name branch user ->
  world (hook_call base owner name (hex_of_bytes random)) = Raise e ->
  snd (serve (add_repo world jenkins base random req) secrets)
  = {| webhookSecrets := secrets;
       sent := [hook_call base owner name (hex_of_bytes random)];
       reply := Some (error_reply e) |}.
Proof.
  intros Hreg Hhook. unfold hook_call, error_reply in *.
  run_registration Hreg. rewrite Hhook. cbn.
  destruct (response e) as [[code details]|]; reflexivity.
Qed.

Lemma hook_creation_failure_witness :
  snd (serve (add_repo refusing_github_world sample_jenkins sample_base sample_random
                sample_registration) sample_secrets)
  = {| webhookSecrets := sample_secrets;
       sent := [hook_call sample_base "acme" "widget" (hex_of_bytes sample_random)];
       reply := Some (error_reply hook_refusal) |}.
Proof.
  apply (hook_creation_failure refusing_github_world sample_jenkins sample_base
           sample_random sample_secrets sample_registration
           "acme" "widget" "main" "u123" hook_refusal).
  - exact sample_registration_valid.
  - reflexivity.
Defined.

(** X7: when the hook is created but the job lookup fails otherwise than
    by a 404, the registration stops after the secret is stored: no build
    is triggered and the answer is the error of the lookup. *)
Theorem job_lookup_failure_stops_registration
    world jenkins base random secrets req owner name branch user hook e :
  registration req owner name branch user ->
  world (hook_call base owner name (hex_of_bytes random)) = Ok hook ->
  created hook ->
  world (job_call jenkins user) = Raise e ->
  ~ job_checked (Raise e) ->
  snd (serve (add_repo world jenkins base random req) secrets)
  = {| webhookSecrets := <[full_name owner name := hex_of_bytes random]> secrets;
       sent := [hook_call base owner name (hex_of_bytes random); job_call jenkins user];
       reply := Some (error_reply e) |}.
Proof.
  intros Hreg Hhook (data & id & text & Hdata & Hid & Htext) Hjob Hnot.
  unfold hook_call, job_call, error_reply, job_checked in *.
  run_registration Hreg.
  rewrite Hhook. cbn. rewrite Hdata. cbn. rewrite Hid. cbn. rewrite Htext. cbn.
  rewrite template_job. cbn. rewrite Hjob. cbn.
  destruct (response e) as [[code details]|] eqn:Hresp; cbn;
    [|by rewrite Hresp].
  destruct (code =? 404) eqn:Hcode; cbn; [|by rewrite Hresp].
  apply Z.eqb_eq in Hcode as ->. destruct Hnot. eauto.
Qed.

Lemma job_lookup_failure_stops_registration_witness :
  snd (serve (add_repo jenkins_down_world sample_jenkins sample_base sample_random
                sample_registration) ∅)
  = {| webhookSecrets := <[full_name "acme" "widget" := hex_of_bytes sample_random]> ∅;
       sent := [hook_call sample_base "acme" "widget" (hex_of_bytes sample_random);
                job_call sample_jenkins "u123"];
       reply := Some (error_reply network_failure) |}.
Proof.
  apply (job_lookup_failure_stops_registration jenkins_down_world sample_jenkins
           sample_base sample_random ∅ sample_registration
           "acme" "widget" "main" "u123" sample_hook network_failure).
  - exact sample_registration_valid.
  - reflexivity.
  - exists (VObj [("id", VNum 12345678);
                  ("config", VObj [("url", VStr "https://relay.example/webhook/github")])]),
      (VNum 12345678), "12345678".
    repeat split; vm_compute; reflexivity.
  - reflexivity.
  - intros [details [=]].
Defined.

(** X8: when every step succeeds (the job lookup may answer 404), a valid
    registration stores the secret, issues the three calls in order, the
    build with REPO_OWNER, REPO_NAME, BRANCH and USER_ID = user_id on the
    job odoo-deploy-user_id, and answers 200 with the hook id and url, the
    job name, owner/name and the branch. *)
Theorem registration_success
    world jenkins base random secrets req owner name branch user hook id url answer :
  registration req owner name branch user ->
  world (hook_call base owner name (hex_of_bytes random)) = Ok hook ->
  hook_fields hook id url ->
  job_checked (world (job_call jenkins user)) ->
  world (first_build_call jenkins owner name branch user) = Ok answer ->
  logged_status answer ->
  serve (add_repo world jenkins base random req) secrets
  = (Normal tt,
     {| webhookSecrets := <[full_name owner name := hex_of_bytes random]> secrets;
        sent := [hook_call base owner name (hex_of_bytes random);
                 job_call jenkins user;
                 first_build_call jenkins owner name branch user];
        reply := Some (registered_reply id url owner name branch user) |}).
Proof.
  intros Hreg Hhook (data & config & text & Hdata & Hid & Htext & Hconfig & Hurl)
    Hjob Hbuild (code & ctext & Hcode & Hctext).
  unfold hook_call, job_call, first_build_call, registered_reply, job_checked in *.
  run_registration Hreg.
  rewrite Hhook. cbn. rewrite Hdata. cbn. rewrite Hid. cbn. rewrite Htext. cbn.
  rewrite template_job. cbn.
  destruct (world (AxiosGet _)) as [found|failure]; cbn.
  - rewrite Hbuild. cbn. rewrite Hcode. cbn. rewrite Hctext. cbn.
    rewrite Hconfig. cbn. rewrite Hurl. cbn. reflexivity.
  - destruct Hjob as [details ->]. cbn.
    rewrite Hbuild. cbn. rewrite Hcode. cbn. rewrite Hctext. cbn.
    rewrite Hconfig. cbn. rewrite Hurl. cbn. reflexivity.
Qed.

Lemma registration_success_witness :
  serve (add_repo job_missing_world sample_jenkins sample_base sample_random
           sample_registration) ∅
  = (Normal tt,
     {| webhookSecrets := <[full_name "acme" "widget" := hex_of_bytes sample_random]> ∅;
        sent := [hook_call sample_base "acme" "widget" (hex_of_bytes sample_random);
                 job_call sample_jenkins "u123";
                 first_build_call sample_jenkins "acme" "widget" "main" "u123"];
        reply := Some (registered_reply (VNum 12345678)
                         (VStr "https://relay.example/webhook/github")
                         "acme" "widget" "main" "u123") |}).
Proof.
  apply (registration_success job_missing_world sample_jenkins sample_base sample_random ∅
           sample_registration "acme" "widget" "main" "u123" sample_hook
           (VNum 12345678) (VStr "https://relay.example/webhook/github")
           (VObj [("status", VNum 201)])).
  - exact sample_registration_valid.
  - reflexivity.
  - exists (VObj [("id", VNum 12345678);
                  ("config", VObj [("url", VStr "https://relay.example/webhook/github")])]),
      (VObj [("url", VStr "https://relay.example/webhook/github")]), "12345678".
    repeat split; vm_compute; reflexivity.
  - exists (VStr "Not Found"). reflexivity.
  - reflexivity.
  - exists (VNum 201), "201". split; vm_compute; reflexivity.
Defined.

(** X9: when [req.body] is [undefined] or [null] the registrar throws
    while destructuring, outside its [try]: the error is not caught, no
    response is sent, no call goes out and the map is unchanged. *)
Theorem registrar_without_body world jenkins base random secrets req :
  body req = VUndef \/ body req = VNull ->
  exists e,
    serve (add_repo world jenkins base random req) secrets
    = (Throw e, {| webhookSecrets := secrets; sent := []; reply := None |}).
Proof.
  intros [Hbody|Hbody]; unfold add_repo; unfold_monad; rewrite Hbody; cbn; eauto.
Qed.

Lemma registrar_without_body_witness :
  exists e,
    serve (add_repo sample_world sample_jenkins sample_base sample_random
             {| headers := ∅; body := VUndef |}) sample_secrets
    = (Throw e, {| webhookSecrets := sample_secrets; sent := []; reply := None |}).
Proof.
  apply (registrar_without_body sample_world sample_jenkins sample_base sample_random
           sample_secrets {| headers := ∅; body := VUndef |}).
  left. reflexivity.
Defined.



(** X11: if a run of the registrar triggers a build, then GitHub has
    accepted the hook with the fresh secret, the job lookup has been made,
    the trigger is the third and last call, and the secret is stored. *)
Theorem registrar_build_needs_hook world jenkins base random secrets req c :
  c ∈ sent (snd (serve (add_repo world jenkins base random req) secrets)) ->
  is_build_trigger c = true ->
  exists owner repo url hook lookup key,
    world (CreateWebhook owner repo url (hex_of_bytes random)) = Ok hook /\
    sent (snd (serve (add_repo world jenkins base random req) secrets))
    = [CreateWebhook owner repo url (hex_of_bytes random); AxiosGet lookup; c] /\
    webhookSecrets (snd (serve (add_repo world jenkins base random req) secrets))
    = <[key := hex_of_bytes random]> secrets.
Proof.
  unfold add_repo, ensureJenkinsJobExists. unfold_monad. cbn.
  repeat case_goal; intros Hin Htrigger;
    repeat (apply elem_of_cons in Hin as [->|Hin]);
    try discriminate Htrigger; try (by apply elem_of_nil in Hin);
    eauto 10.
Qed.

Lemma registrar_build_needs_hook_witness :
  exists owner repo url hook lookup key,
    sample_world (CreateWebhook owner repo url (hex_of_bytes sample_random)) = Ok hook /\
    sent first_run
    = [CreateWebhook owner repo url (hex_of_bytes sample_random); AxiosGet lookup;
       first_build_call sample_jenkins "acme" "widget" "main" "u123"] /\
    webhookSecrets first_run = <[key := hex_of_bytes sample_random]> ∅.
Proof.
  unfold first_run.
  apply (registrar_build_needs_hook sample_world sample_jenkins sample_base sample_random ∅
           sample_registration (first_build_call sample_jenkins "acme" "widget" "main" "u123")).
  - vm_compute. do 2 apply list_elem_of_further. apply list_elem_of_here.
  - reflexivity.
Defined.


(** The one write of the registrar: the map is left as it was, or GitHub
    has accepted a hook carrying the fresh secret and the secret is stored
    under the key printed from the two fields sent to GitHub. *)
Lemma add_repo_writes world jenkins base random secrets req :
  let final := snd (serve (add_repo world jenkins base random req) secrets) in
  webhookSecrets final = secrets \/
  exists owner repo url hook key rest,
    get_prop (body req) "repo_owner" = Ok owner /\
    get_prop (body req) "repo_name" = Ok repo /\
    world (CreateWebhook owner repo url (hex_of_bytes random)) = Ok hook /\
    template [inr owner; inl "/"; inr repo] = Ok key /\
    sent final = CreateWebhook owner repo url (hex_of_bytes random) :: rest /\
    webhookSecrets final = <[key := hex_of_bytes random]> secrets.
Proof.
  unfold add_repo, ensureJenkinsJobExists. unfold_monad. cbn.
  repeat case_goal; eauto 15.
Qed.

(** X12: the registrar writes the map at most once and only after GitHub
    has accepted the hook: the value stored is the secret sent to GitHub
    and the key is the text of owner/name printed from the two fields sent
    to GitHub; otherwise the map is as it was. *)
Theorem secret_stored_after_hook world jenkins base random secrets req :
  let final := snd (serve (add_repo world jenkins base random req) secrets) in
  webhookSecrets final = secrets \/
  exists owner repo url hook key rest,
    get_prop (body req) "repo_owner" = Ok owner /\
    get_prop (body req) "repo_name" = Ok repo /\
    world (CreateWebhook owner repo url (hex_of_bytes random)) = Ok hook /\
    template [inr owner; inl "/"; inr repo] = Ok key /\
    sent final = CreateWebhook owner repo url (hex_of_bytes random) :: rest /\
    webhookSecrets final = <[key := hex_of_bytes random]> secrets.
Proof.
  unfold add_repo, ensureJenkinsJobExists. unfold_monad. cbn.
  repeat case_goal; eauto 15.
Qed.

Lemma contains_slash_append (a b : string) : contains "/" (a +:+ String "/" b) = true.
Proof.
  induction a as [|c a IH]; [reflexivity|].
  change (String c a +:+ String "/" b) with (String c (a +:+ String "/" b)).
  cbn -[Ascii.eqb]. destruct (Ascii.eqb "/" c); [reflexivity|exact IH].
Qed.

Lemma template_key_slash (owner repo : jsval) (key : string) :
  template [inr owner; inl "/"; inr repo] = Ok key -> contains "/" key = true.
Proof.
  unfold template, obind.
  destruct (js_to_string owner) as [a|]; [|discriminate].
  destruct (js_to_string repo) as [b|]; [|discriminate].
  intros [= <-]. apply contains_slash_append.
Qed.

Lemma contains_slash_split (s : string) :
  contains "/" s = true -> exists a b rest, split "/" s = a :: b :: rest.
Proof.
  induction s as [|c s IH]; [discriminate|].
  cbn -[Ascii.eqb]. rewrite (Ascii.eqb_sym "/" c). destruct (Ascii.eqb c "/").
  - intros _. destruct (split_nonempty "/" s) as (b & rest & ->). eauto.
  - intros H. destruct (IH H) as (a & b & rest & ->). eauto.
Qed.

(** The invariant of the map, with the shape of the keys. *)
Lemma reachable_entries secrets key secret :
  reachable secrets ->
  secrets !! key = Some secret ->
  String.length secret = 64%nat /\ contains "/" key = true.
Proof.
  intros Hreach. revert key secret.
  induction Hreach as [|world jenkins base random req secrets _ IH Hlen
                       |world jenkins req secrets _ IH]; intros key secret.
  - by rewrite lookup_empty.
  - destruct (add_repo_writes world jenkins base random secrets req)
      as [->|(owner & repo & url & hook & k & rest & _ & _ & _ & Hkey & _ & ->)];
      [apply IH|].
    rewrite lookup_insert. case_decide as Heq; [|apply IH].
    intros [= <-]. subst k. split.
    + rewrite hex_length, Hlen. reflexivity.
    + exact (template_key_slash _ _ _ Hkey).
  - rewrite webhook_secrets. apply IH.
Qed.

(** X13: in every map the service can reach from the empty one, each
    secret has 64 characters and each key contains a slash. *)
Theorem reachable_map_invariant secrets key secret :
  reachable secrets ->
  secrets !! key = Some secret ->
  String.length secret = 64%nat /\ contains "/" key = true.
Proof.
  intros Hreach. revert key secret.
  induction Hreach as [|world jenkins base random req secrets _ IH Hlen
                       |world jenkins req secrets _ IH]; intros key secret.
  - by rewrite lookup_empty.
  - destruct (add_repo_writes world jenkins base random secrets req)
      as [->|(owner & repo & url & hook & k & rest & _ & _ & _ & Hkey & _ & ->)];
      [apply IH|].
    rewrite lookup_insert. case_decide as Heq; [|apply IH].
    intros [= <-]. subst k. split.
    + rewrite hex_length, Hlen. reflexivity.
    + exact (template_key_slash _ _ _ Hkey).
  - rewrite webhook_secrets. apply IH.
Qed.

Lemma first_run_reachable : reachable (webhookSecrets first_run).
Proof. apply reach_add_repo; [apply reach_start|reflexivity]. Qed.

Lemma reachable_map_invariant_witness :
  String.length (hex_of_bytes sample_random) = 64%nat /\ contains "/" "acme/widget" = true.
Proof.
  apply (reachable_map_invariant (webhookSecrets first_run) "acme/widget"
           (hex_of_bytes sample_random)).
  - exact first_run_reachable.
  - vm_compute. reflexivity.
Defined.


Lemma concat_cons (sep x y : string) (ys : list string) :
  String.concat sep (x :: y :: ys) = x +:+ sep +:+ String.concat sep (y :: ys).
Proof. reflexivity. Qed.

Lemma split_concat (s : string) : String.concat "/" (split "/" s) = s.
Proof.
  induction s as [|c s IH]; [reflexivity|].
  cbn -[Ascii.eqb String.concat]. destruct (Ascii.eqb_spec c "/") as [->|Hc].
  - destruct (split_nonempty "/" s) as (piece & pieces & Hs).
    rewrite Hs in *. by rewrite concat_cons, IH.
  - destruct (split "/" s) as [|piece [|next pieces]].
    + by rewrite <- IH.
    + cbn in IH |- *. by rewrite IH.
    + rewrite concat_cons in IH |- *.
      change (String c piece +:+ "/" +:+ String.concat "/" (next :: pieces))
        with (String c (piece +:+ "/" +:+ String.concat "/" (next :: pieces))).
      by rewrite IH.
Qed.

Lemma split_pieces (s : string) : Forall (fun piece => no_slash piece = true) (split "/" s).
Proof.
  induction s as [|c s IH]; [by repeat constructor|].
  cbn -[Ascii.eqb]. destruct (Ascii.eqb c "/") eqn:Hc.
  - by constructor.
  - destruct (split "/" s) as [|piece pieces]; [by repeat constructor; cbn; rewrite Hc|].
    apply Forall_cons in IH as [Hpiece Hrest].
    constructor; [|exact Hrest]. cbn -[Ascii.eqb]. by rewrite Hc, Hpiece.
Qed.

(** X14: in a reachable map, an accepted push always triggers a build
    whose REPO_OWNER and REPO_NAME are strings, never undefined: the first
    two slash-separated pieces of the full name, the first one naming the
    job and the user. *)
Theorem reachable_push_parameters world jenkins secrets req name ref secret text :
  reachable secrets ->
  push_event req name ref ->
  secrets !! name = Some secret ->
  JSON_stringify (body req) = Some text ->
  headers req !! "x-hub-signature-256" = Some (expected_signature secret text) ->
  exists owner repo rest branch sha,
    String.concat "/" (owner :: repo :: rest) = name /\
    no_slash owner = true /\ no_slash repo = true /\
    sent (snd (serve (webhook_github world jenkins req) secrets))
    = [AxiosPost (build_url jenkins (job_name owner))
         [("REPO_OWNER", VStr owner); ("REPO_NAME", VStr repo);
          ("BRANCH", VStr branch); ("USER_ID", VStr owner); ("COMMIT_SHA", sha)]].
Proof.
  intros Hreach Hpush Hsecret Htext Hsig.
  destruct (reachable_entries secrets name secret Hreach Hsecret) as [Hlen Hslash].
  destruct (contains_slash_split name Hslash) as (owner & repo & rest & Hsplit).
  destruct (webhook_push world jenkins secrets req name ref Hpush)
    as (text' & sha & Htext' & _ & Hrun).
  rewrite Htext in Htext'. injection Htext' as <-.
  destruct secret as [|c tail]; [discriminate|].
  exists owner, repo, rest, (replace_first "refs/heads/" EmptyString ref), sha.
  pose proof (split_concat name) as Hconcat. pose proof (split_pieces name) as Hpieces.
  rewrite Hsplit in Hconcat, Hpieces.
  apply Forall_cons in Hpieces as [Ho Hpieces]. apply Forall_cons in Hpieces as [Hr _].
  repeat (split; [assumption|]).
  rewrite Hrun, Hsecret, bool_decide_eq_true_2 by exact Hsig. cbn.
  unfold push_trigger, owner_part. by rewrite Hsplit.
Qed.

Lemma reachable_push_parameters_witness :
  exists owner repo rest branch sha,
    String.concat "/" (owner :: repo :: rest) = "acme/widget" /\
    no_slash owner = true /\ no_slash repo = true /\
    sent (snd (serve (webhook_github sample_world sample_jenkins
                        (push_request (expected_signature (hex_of_bytes sample_random)
                                         sample_text) sample_payload))
                 (webhookSecrets first_run)))
    = [AxiosPost (build_url sample_jenkins (job_name owner))
         [("REPO_OWNER", VStr owner); ("REPO_NAME", VStr repo);
          ("BRANCH", VStr branch); ("USER_ID", VStr owner); ("COMMIT_SHA", sha)]].
Proof.
  apply (reachable_push_parameters sample_world sample_jenkins (webhookSecrets first_run)
           (push_request (expected_signature (hex_of_bytes sample_random) sample_text)
              sample_payload)
           "acme/widget" "refs/heads/main" (hex_of_bytes sample_random) sample_text).
  - exact first_run_reachable.
  - exact sample_push_event.
  - vm_compute. reflexivity.
  - reflexivity.
  - reflexivity.
Defined.

(** X15: registering one repository does not change how a push to any
    other repository is handled: same completion, same calls, same
    response as before the registration. *)
Theorem registration_leaves_other_repos
    world jenkins base random secrets req owner repo branch user
    world' jenkins' push name ref :
  registration req owner repo branch user ->
  push_event push name ref ->
  name <> full_name owner repo ->
  let registered :=
    webhookSecrets (snd (serve (add_repo world jenkins base random req) secrets)) in
  let before := serve (webhook_github world' jenkins' push) secrets in
  let after := serve (webhook_github world' jenkins' push) registered in
  fst after = fst before /\
  sent (snd after) = sent (snd before) /\
  reply (snd after) = reply (snd before).
Proof.
  intros Hreg Hpush Hother registered before after.
  assert (Hsame : registered !! name = secrets !! name).
  { subst registered.
    destruct (add_repo_writes world jenkins base random secrets req)
      as [->|(o & r & url & hook & key & rest & Ho & Hr & _ & Hkey & _ & ->)];
      [reflexivity|].
    destruct Hreg as (Ho' & Hr' & _).
    rewrite Ho' in Ho. rewrite Hr' in Hr. injection Ho as <-. injection Hr as <-.
    rewrite template_key in Hkey. injection Hkey as <-.
    by rewrite lookup_insert_ne. }
  destruct (webhook_push world' jenkins' secrets push name ref Hpush)
    as (text & sha & Htext & Hsha & Hbefore).
  destruct (webhook_push world' jenkins' registered push name ref Hpush)
    as (text' & sha' & Htext' & Hsha' & Hafter).
  rewrite Htext in Htext'. injection Htext' as <-.
  rewrite Hsha in Hsha'. injection Hsha' as <-.
  subst before after. rewrite Hbefore, Hafter, Hsame.
  destruct (secrets !! name) as [[|c tail]|]; cbn; try done.
  case_bool_decide; done.
Qed.

Lemma registration_leaves_other_repos_witness :
  fst (serve (webhook_github sample_world sample_jenkins
                (push_request "sha256=00" other_payload)) (webhookSecrets first_run))
  = fst (serve (webhook_github sample_world sample_jenkins
                  (push_request "sha256=00" other_payload)) ∅) /\
  sent (snd (serve (webhook_github sample_world sample_jenkins
                      (push_request "sha256=00" other_payload)) (webhookSecrets first_run)))
  = sent (snd (serve (webhook_github sample_world sample_jenkins
                        (push_request "sha256=00" other_payload)) ∅)) /\
  reply (snd (serve (webhook_github sample_world sample_jenkins
                       (push_request "sha256=00" other_payload)) (webhookSecrets first_run)))
  = reply (snd (serve (webhook_github sample_world sample_jenkins
                         (push_request "sha256=00" other_payload)) ∅)).
Proof.
  unfold first_run.
  apply (registration_leaves_other_repos sample_world sample_jenkins sample_base
           sample_random ∅ sample_registration "acme" "widget" "main" "u123"
           sample_world sample_jenkins (push_request "sha256=00" other_payload)
           "acme/gadget" "refs/heads/main").
  - exact sample_registration_valid.
  - split; [vm_compute; reflexivity|].
    exists (VObj [("full_name", VStr "acme/gadget")]). repeat split; reflexivity.
  - vm_compute. discriminate.
Defined.

(** X16: no run forgets a repository: after a registration every key of
    the map is still a key, and the receiver leaves the keys as they are. *)
Theorem handlers_never_forget world jenkins base random secrets req :
  dom secrets ⊆ dom (webhookSecrets (snd (serve (add_repo world jenkins base random req)
                                            secrets))) /\
  dom (webhookSecrets (snd (serve (webhook_github world jenkins req) secrets)))
  = dom secrets.
Proof.
  split; [|by rewrite webhook_secrets].
  destruct (add_repo_writes world jenkins base random secrets req)
    as [->|(o & r & url & hook & key & rest & _ & _ & _ & _ & _ & ->)];
    [done|apply dom_insert_subseteq].
Qed.

(** X17: [/health] answers 200 with status ok, the timestamp, and the
    registered repositories: each key of the map once, as a string, and
    nothing else; it issues no call and leaves the map unchanged.  (The
    order of the list is not stated.) *)
Theorem health_lists_registered now secrets :
  exists repos,
    serve (health now) secrets
    = (Normal tt,
       {| webhookSecrets := secrets; sent := [];
          reply := Some {| status := 200;
                           content := Json (VObj [("status", VStr "ok");
                                                  ("timestamp", VStr now);
                                                  ("registered_repos", VArr repos)]) |} |}) /\
    (forall key, VStr key ∈ repos <-> is_Some (secrets !! key)) /\
    (forall v, v ∈ repos -> exists key, v = VStr key) /\
    NoDup repos /\
    length repos = size secrets.
Proof.
  exists (map (fun entry : string * string => VStr (fst entry)) (map_to_list secrets)).
  split; [reflexivity|]. split; [|split; [|split]].
  - intros key. rewrite list_elem_of_fmap. split.
    + intros ([k v] & [= ->] & Hin). apply elem_of_map_to_list in Hin. eauto.
    + intros [v Hv]. exists (key, v). split; [reflexivity|].
      by apply elem_of_map_to_list.
  - intros v ([k s] & -> & _)%list_elem_of_fmap. eauto.
  - assert (Hmap : map (fun entry : string * string => VStr (fst entry))
                     (map_to_list secrets)
                   = VStr <$> (map_to_list secrets).*1).
    { by rewrite <- list_fmap_compose. }
    rewrite Hmap. apply NoDup_fmap_2; [by intros ? ? [=]|].
    apply NoDup_fst_map_to_list.
  - rewrite length_map. apply length_map_to_list.
Qed.

(** ** The format of secrets and signatures *)

Lemma hex_digit_lower (d : Z) : 0 <= d < 16 -> lower_hex (hex_digit d) = true.
Proof.
  intros Hd.
  assert (Hcases : d = 0 \/ d = 1 \/ d = 2 \/ d = 3 \/ d = 4 \/ d = 5 \/ d = 6 \/ d = 7 \/
                   d = 8 \/ d = 9 \/ d = 10 \/ d = 11 \/ d = 12 \/ d = 13 \/ d = 14 \/ d = 15)
    by lia.
  repeat destruct Hcases as [->|Hcases]; try subst d; reflexivity.
Qed.

Lemma hex_of_bytes_lower (bs : list Z) :
  Forall is_byte bs -> all_chars lower_hex (hex_of_bytes bs) = true.
Proof.
  induction 1 as [|b bs Hb _ IH]; [reflexivity|].
  unfold is_byte in Hb.
  change (hex_of_bytes (b :: bs))
    with (String (hex_digit (b / 16)) (String (hex_digit (b mod 16)) (hex_of_bytes bs))).
  cbn [all_chars]. rewrite IH, !hex_digit_lower; [reflexivity| |].
  - apply Z.mod_pos_bound. lia.
  - split; [apply Z.div_pos; lia|apply Z.div_lt_upper_bound; lia].
Qed.

(** X18: the secret made from 32 random bytes is a text of 64 lowercase
    hexadecimal digits. *)
Theorem secret_format (random : list Z) :
  length random = 32%nat ->
  Forall is_byte random ->
  String.length (hex_of_bytes random) = 64%nat /\
  all_chars lower_hex (hex_of_bytes random) = true.
Proof.
  intros Hlen Hbytes. split; [by rewrite hex_length, Hlen|by apply hex_of_bytes_lower].
Qed.

Lemma sample_random_bytes : Forall is_byte sample_random.
Proof. unfold sample_random. apply Forall_forall. intros b Hb.
  apply list_elem_of_In, in_map_iff in Hb as (n & <- & Hn%in_seq). unfold is_byte. lia.
Qed.

Lemma secret_format_witness :
  String.length (hex_of_bytes sample_random) = 64%nat /\
  all_chars lower_hex (hex_of_bytes sample_random) = true.
Proof.
  apply (secret_format sample_random); [reflexivity|exact sample_random_bytes].
Defined.

Lemma be_bytes_length (n : nat) (x : Z) : length (SHA256.be_bytes n x) = n.
Proof. induction n as [|n IH]; cbn; [reflexivity|by rewrite IH]. Qed.

Lemma be_bytes_range (n : nat) (x : Z) : Forall is_byte (SHA256.be_bytes n x).
Proof.
  induction n as [|n IH]; cbn [SHA256.be_bytes]; constructor; [|exact IH].
  unfold is_byte. change 0xff with (Z.ones 8). rewrite Z.land_ones by lia.
  apply Z.mod_pos_bound. lia.
Qed.

Lemma round_length (v : list Z) (kw : Z * Z) :
  length v = 8%nat -> length (SHA256.round v kw) = 8%nat.
Proof.
  intros Hv. do 9 (destruct v as [|? v]; try discriminate). reflexivity.
Qed.

Lemma rounds_length (kws : list (Z * Z)) (v : list Z) :
  length v = 8%nat -> length (fold_left SHA256.round kws v) = 8%nat.
Proof.
  revert v. induction kws as [|kw kws IH]; intros v Hv; [exact Hv|].
  cbn [fold_left]. apply IH. by apply round_length.
Qed.

Lemma compress_length (hash block : list Z) :
  length hash = 8%nat -> length (SHA256.compress hash block) = 8%nat.
Proof.
  intros Hh. unfold SHA256.compress.
  rewrite length_map, length_combine, rounds_length, Hh by exact Hh. reflexivity.
Qed.


Lemma compress_blocks_length (blocks : list (list Z)) (hash : list Z) :
  length hash = 8%nat -> length (fold_left SHA256.compress blocks hash) = 8%nat.
Proof.
  revert hash. induction blocks as [|b blocks IH]; intros hash Hh; [exact Hh|].
  cbn [fold_left]. apply IH. by apply compress_length.
Qed.

Lemma digest_length (msg : list Z) : length (SHA256.digest msg) = 32%nat.
Proof.
  unfold SHA256.digest.
  assert (Hwords : forall ws : list Z,
            length (flat_map (SHA256.be_bytes 4) ws) = (4 * length ws)%nat).
  { induction ws as [|w ws IH]; [reflexivity|].
    cbn [flat_map]. rewrite length_app, be_bytes_length, IH. cbn [length]. lia. }
  rewrite Hwords, compress_blocks_length; reflexivity.
Qed.

Lemma digest_bytes (msg : list Z) : Forall is_byte (SHA256.digest msg).
Proof.
  unfold SHA256.digest.
  generalize (fold_left SHA256.compress
                (SHA256.blocks (length (SHA256.pad msg) / 64) (SHA256.pad msg)) SHA256.H0).
  induction l as [|w ws IH]; [constructor|].
  cbn [flat_map]. apply Forall_app. split; [apply be_bytes_range|exact IH].
Qed.

(** X19: the signature the receiver recomputes is always sha256= followed
    by 64 lowercase hexadecimal digits, whatever the secret and the body. *)
Theorem signature_format (secret text : string) :
  exists digest,
    expected_signature secret text = "sha256=" +:+ digest /\
    String.length digest = 64%nat /\
    all_chars lower_hex digest = true.
Proof.
  exists (hmac_sha256_hex secret text). split; [reflexivity|].
  unfold hmac_sha256_hex, hmac_sha256. split.
  - by rewrite hex_length, digest_length.
  - apply hex_of_bytes_lower, digest_bytes.
Qed.

(** ** The two jobs *)

Lemma append_length (a b : string) :
  String.length (a +:+ b) = (String.length a + String.length b)%nat.
Proof.
  induction a as [|c a IH]; [reflexivity|].
  change (String c a +:+ b) with (String c (a +:+ b)). cbn [String.length]. by rewrite IH.
Qed.

Lemma append_cancel_l (p a b : string) : p +:+ a = p +:+ b -> a = b.
Proof.
  induction p as [|c p IH]; [done|].
  change (String c p +:+ a) with (String c (p +:+ a)).
  change (String c p +:+ b) with (String c (p +:+ b)).
  intros [= H]. by apply IH.
Qed.

Lemma append_cancel_r (a b s : string) : a +:+ s = b +:+ s -> a = b.
Proof.
  revert b. induction a as [|c a IH]; intros [|d b] H.
  - reflexivity.
  - apply (f_equal String.length) in H. rewrite !append_length in H. cbn in H. lia.
  - apply (f_equal String.length) in H. rewrite !append_length in H. cbn in H. lia.
  - change (String c a +:+ s) with (String c (a +:+ s)) in H.
    change (String d b +:+ s) with (String d (b +:+ s)) in H.
    injection H as -> H. by rewrite (IH b H).
Qed.

Lemma build_url_job (base user owner : string) :
  build_url base (job_name user) = build_url base (job_name owner) <-> user = owner.
Proof.
  split; [|by intros ->]. unfold build_url, job_name. intros H.
  apply append_cancel_l, append_cancel_l, append_cancel_r, append_cancel_l in H. exact H.
Qed.

Lemma registration_calls world jenkins base random secrets req owner name branch user :
  registration req owner name branch user ->
  succeeded (snd (serve (add_repo world jenkins base random req) secrets)) ->
  sent (snd (serve (add_repo world jenkins base random req) secrets))
  = [hook_call base owner name (hex_of_bytes random);
     job_call jenkins user;
     first_build_call jenkins owner name branch user].
Proof.
  intros Hreg. unfold hook_call, job_call, first_build_call. run_registration Hreg.
  rewrite template_job. cbn.
  repeat case_goal; intros [data Hreply]; cbn in Hreply;
    first [discriminate Hreply | reflexivity].
Qed.

(** X20: after a successful registration, a push signed under the stored
    secret is accepted, and its build goes to the job named after the
    owner, while the initial build went to the job named after user_id;
    the two are the same job exactly when user_id is the owner. *)
Theorem push_build_goes_to_owner_job
    world world' jenkins base random secrets req owner repo branch user push ref text :
  length random = 32%nat ->
  registration req owner repo branch user ->
  no_slash owner = true ->
  succeeded (snd (serve (add_repo world jenkins base random req) secrets)) ->
  push_event push (full_name owner repo) ref ->
  JSON_stringify (body push) = Some text ->
  headers push !! "x-hub-signature-256"
  = Some (expected_signature (hex_of_bytes random) text) ->
  let first := snd (serve (add_repo world jenkins base random req) secrets) in
  let final := snd (serve (webhook_github world' jenkins push) (webhookSecrets first)) in
  (exists params,
     last (sent first) = Some (AxiosPost (build_url jenkins (job_name user)) params)) /\
  (exists params,
     sent final = [AxiosPost (build_url jenkins (job_name owner)) params]) /\
  (build_url jenkins (job_name user) = build_url jenkins (job_name owner) <-> user = owner).
Proof.
  intros Hlen Hreg Howner Hdone Hpush Htext Hsig first final.
  split; [|split; [|apply build_url_job]].
  - subst first. rewrite (registration_calls _ _ _ _ _ _ _ _ _ _ Hreg Hdone).
    unfold first_build_call. cbn. eauto.
  - subst final first.
    rewrite (registration_stores _ _ _ _ _ _ _ _ _ _ Hreg Hdone).
    destruct (webhook_push world' jenkins
                (<[full_name owner repo := hex_of_bytes random]> secrets) push _ _ Hpush)
      as (text' & sha & Htext' & _ & Hrun).
    rewrite Htext in Htext'. injection Htext' as <-.
    assert (Hsecret : exists c tail, hex_of_bytes random = String c tail).
    { assert (Hl : String.length (hex_of_bytes random) = 64%nat)
        by (rewrite hex_length, Hlen; reflexivity).
      destruct (hex_of_bytes random); [discriminate|eauto]. }
    destruct Hsecret as (c & tail & Hsecret).
    rewrite Hrun, lookup_insert_eq, Hsecret. rewrite <- Hsecret.
    rewrite bool_decide_eq_true_2 by exact Hsig. cbn.
    unfold push_trigger, owner_part, full_name.
    change ("/" +:+ repo) with (String "/" repo).
    rewrite split_append by exact Howner. cbn. eauto.
Qed.

Lemma push_build_goes_to_owner_job_witness :
  (exists params,
     last (sent first_run) = Some (AxiosPost (build_url sample_jenkins (job_name "u123")) params)) /\
  (exists params,
     sent (snd (serve (webhook_github sample_world sample_jenkins
                         (push_request (expected_signature (hex_of_bytes sample_random)
                                          sample_text) sample_payload))
                  (webhookSecrets first_run)))
     = [AxiosPost (build_url sample_jenkins (job_name "acme")) params]) /\
  (build_url sample_jenkins (job_name "u123") = build_url sample_jenkins (job_name "acme")
   <-> "u123" = "acme").
Proof.
  assert (Hdone : succeeded first_run) by (vm_compute; eexists; reflexivity).
  unfold first_run in *.
  exact (push_build_goes_to_owner_job sample_world sample_world sample_jenkins sample_base
           sample_random ∅ sample_registration "acme" "widget" "main" "u123"
           (push_request (expected_signature (hex_of_bytes sample_random) sample_text)
              sample_payload)
           "refs/heads/main" sample_text
           eq_refl sample_registration_valid eq_refl Hdone sample_push_event eq_refl eq_refl).
Defined.

(** * Where the code departs from its specification *)

Lemma webhook_accepts world jenkins secrets req name ref secret text :
  secrets_ok secrets ->
  push_event req name ref ->
  secrets !! name = Some secret ->
  JSON_stringify (body req) = Some text ->
  headers req !! "x-hub-signature-256" = Some (expected_signature secret text) ->
  exists sha,
    get_prop (body req) "after" = Ok sha /\
    sent (snd (serve (webhook_github world jenkins req) secrets))
    = [push_trigger jenkins name (replace_first "refs/heads/" EmptyString ref) sha].
Proof.
  intros Hok Hpush Hsecret Htext Hsig.
  destruct (webhook_push world jenkins secrets req name ref Hpush)
    as (text' & sha & Htext' & Hsha & Hrun).
  rewrite Htext in Htext'. injection Htext' as <-.
  destruct (secrets_ok_nonempty _ _ _ Hok Hsecret) as (c & rest & ->).
  exists sha. split; [exact Hsha|].
  by rewrite Hrun, Hsecret, bool_decide_eq_true_2.
Qed.

Lemma sample_payload_event signature :
  push_event (push_request signature sample_payload) "acme/widget" "refs/heads/main".
Proof.
  split; [vm_compute; reflexivity|].
  exists (VObj [("full_name", VStr "acme/widget")]). repeat split; reflexivity.
Qed.

(** C1, on the code: the gate is not on the body as received.  The body
    [spaced_body] is received and parsed to [sample_payload]; the secret
    of acme/widget is stored.  A delivery whose signature header is
    sha256= and the hex HMAC-SHA256 of the received bytes is refused with
    401 and triggers nothing; a delivery whose header is another text,
    the signature of the compact re-serialization, is accepted and
    triggers the build. *)
Theorem received_body_gate_fails world :
  express_json spaced_body = Some sample_payload /\
  expected_signature sample_secret spaced_body = spaced_body_signature /\
  serve (webhook_github world sample_jenkins
           (push_request spaced_body_signature sample_payload)) sample_secrets
  = (Returned,
     {| webhookSecrets := sample_secrets; sent := [];
        reply := text_reply 401 "Invalid signature" |}) /\
  compact_text_signature <> expected_signature sample_secret spaced_body /\
  sent (snd (serve (webhook_github world sample_jenkins
                      (push_request compact_text_signature sample_payload)) sample_secrets))
  = [AxiosPost "http://jenkins.example/job/odoo-deploy-acme/buildWithParameters"
       [("REPO_OWNER", VStr "acme"); ("REPO_NAME", VStr "widget");
        ("BRANCH", VStr "main"); ("USER_ID", VStr "acme");
        ("COMMIT_SHA", VStr "9fceb02d0ae598e95dc970b74767f19372d61af8")]].
Proof.
  split; [vm_compute; reflexivity|]. split; [vm_compute; reflexivity|].
  split; [|split; [vm_compute; discriminate|]].
  - apply (webhook_rejects world sample_jenkins sample_secrets _
             "acme/widget" "refs/heads/main" sample_secret sample_text).
    + exact sample_secrets_ok.
    + apply sample_payload_event.
    + vm_compute. reflexivity.
    + reflexivity.
    + vm_compute. discriminate.
  - destruct (webhook_accepts world sample_jenkins sample_secrets
                (push_request compact_text_signature sample_payload)
                "acme/widget" "refs/heads/main" sample_secret sample_text)
      as (sha & Hsha & Hsent).
    + exact sample_secrets_ok.
    + apply sample_payload_event.
    + vm_compute. reflexivity.
    + reflexivity.
    + vm_compute. reflexivity.
    + injection Hsha as <-. rewrite Hsent. reflexivity.
Qed.

(** C6, on the code: the branch is not always the ref without its prefix.
    The tag named refs/heads/x is pushed to acme/widget with a correct
    signature; its ref has no refs/heads/ prefix, so stripping the prefix
    leaves it whole, but the accepted push triggers the build with
    BRANCH = refs/tags/x: the handler removes the first occurrence of
    the text, wherever it is. *)
Theorem replaced_ref_not_stripped world :
  strip_ref_prefix "refs/tags/refs/heads/x" = "refs/tags/refs/heads/x" /\
  expected_signature sample_secret (default EmptyString (JSON_stringify nested_tag_payload))
  = nested_tag_signature /\
  sent (snd (serve (webhook_github world sample_jenkins
                      (push_request nested_tag_signature nested_tag_payload)) sample_secrets))
  = [AxiosPost "http://jenkins.example/job/odoo-deploy-acme/buildWithParameters"
       [("REPO_OWNER", VStr "acme"); ("REPO_NAME", VStr "widget");
        ("BRANCH", VStr "refs/tags/x"); ("USER_ID", VStr "acme");
        ("COMMIT_SHA", VStr "9fceb02d0ae598e95dc970b74767f19372d61af8")]].
Proof.
  split; [reflexivity|]. split; [vm_compute; reflexivity|].
  destruct (webhook_accepts world sample_jenkins sample_secrets
              (push_request nested_tag_signature nested_tag_payload)
              "acme/widget" "refs/tags/refs/heads/x" sample_secret
              (default EmptyString (JSON_stringify nested_tag_payload)))
    as (sha & Hsha & Hsent).
  - exact sample_secrets_ok.
  - split; [vm_compute; reflexivity|].
    exists (VObj [("full_name", VStr "acme/widget")]). repeat split; reflexivity.
  - vm_compute. reflexivity.
  - reflexivity.
  - vm_compute. reflexivity.
  - injection Hsha as <-. rewrite Hsent. reflexivity.
Qed.
